(** * Elderly Monitor: the anomaly-detection core of [app.py]

    A shallow embedding of [haversine], [record_and_send_alert],
    [compute_baselines], [check_latest_for_user] and [periodic_check_all],
    and the properties of the rule evaluator, the dispatcher and the sweep.

    Conventions of the embedding.
    - A Python [float] is a [pyfloat]: a finite value carried as a
      rational, or one of the IEEE specials [inf], [-inf], [nan], whose
      arithmetic and comparisons follow IEEE 754 as Python exposes them.
      The subtraction and the division of the z-score (lines 143 and 155)
      round to binary64 as the interpreter does ([binary64]); the sums of
      pandas and the arithmetic inside [haversine] are carried out on the
      exact values.
    - A raised exception is the [Raise] branch of [result].
    - [datetime.utcnow()] is the explicit argument [now]; a [datetime] is
      its number of microseconds since the epoch.
    - The SQLite store is the record [Store]; the e-mail and SMS sinks
      append to its [outbox].
    - The transcendental functions of [math] on finite arguments, the square
      root and the text of a formatted float belong to the platform and are
      the fields of [Platform]. *)

From Stdlib Require Import ZArith QArith Qabs Ascii String List Bool Lia Lqa.
From Stdlib Require Import DecimalString Sorted Permutation.
From stdpp Require Import base strings gmap.
Import ListNotations.

Open Scope string_scope.
Open Scope Z_scope.

(** ** Exceptions *)

Inductive exn : Type :=
| ValueError
| ZeroDivisionError
| OverflowError.

Inductive result (A : Type) : Type :=
| Ok (a : A)
| Raise (e : exn).

Arguments Ok {A} a.
Arguments Raise {A} e.

Definition rbind {A B : Type} (r : result A) (k : A -> result B) : result B :=
  match r with
  | Ok a => k a
  | Raise e => Raise e
  end.

Notation "'do' x <- r ; k" := (rbind r (fun x => k))
  (at level 10, x name, r at level 100, k at level 200,
   format "'do'  x  <-  r ;  '//' k").

(** ** Python floats *)

Inductive pyfloat : Type :=
| Fin (q : Q)
| PInf
| NInf
| NaN.

Definition Qlt_bool (a b : Q) : bool := negb (Qle_bool b a).

Definition f_neg (x : pyfloat) : pyfloat :=
  match x with
  | Fin a => Fin (- a)
  | PInf => NInf
  | NInf => PInf
  | NaN => NaN
  end.

Definition f_add (x y : pyfloat) : pyfloat :=
  match x, y with
  | NaN, _ | _, NaN => NaN
  | PInf, NInf | NInf, PInf => NaN
  | PInf, _ | _, PInf => PInf
  | NInf, _ | _, NInf => NInf
  | Fin a, Fin b => Fin (a + b)
  end.

Definition f_sub (x y : pyfloat) : pyfloat := f_add x (f_neg y).

(** The infinity of the sign of [a]; [nan] for [a = 0] (inf * 0). *)
Definition inf_signed (positive : bool) (a : Q) : pyfloat :=
  if Qeq_bool a 0 then NaN
  else if Bool.eqb positive (Qlt_bool 0 a) then PInf else NInf.

Definition f_mul (x y : pyfloat) : pyfloat :=
  match x, y with
  | NaN, _ | _, NaN => NaN
  | Fin a, Fin b => Fin (a * b)
  | PInf, Fin a | Fin a, PInf => inf_signed true a
  | NInf, Fin a | Fin a, NInf => inf_signed false a
  | PInf, PInf | NInf, NInf => PInf
  | PInf, NInf | NInf, PInf => NInf
  end.

(** IEEE division, as numpy performs it: total, a zero divisor gives an
    infinity or [nan] (zeros carry no sign here). *)
Definition f_div_ieee (x y : pyfloat) : pyfloat :=
  match y with
  | Fin b =>
      match x with
      | Fin a => if Qeq_bool b 0 then inf_signed true a else Fin (a / b)
      | PInf => if Qeq_bool b 0 then PInf else inf_signed true b
      | NInf => if Qeq_bool b 0 then NInf else inf_signed false b
      | NaN => NaN
      end
  | PInf | NInf =>
      match x with
      | Fin _ => Fin 0
      | _ => NaN
      end
  | NaN => NaN
  end.

(** [x / y] on Python floats: [ZeroDivisionError] for a zero divisor,
    whatever the dividend. *)
Definition f_div (x y : pyfloat) : result pyfloat :=
  match y with
  | Fin b => if Qeq_bool b 0 then Raise ZeroDivisionError
             else Ok (f_div_ieee x y)
  | _ => Ok (f_div_ieee x y)
  end.

Definition f_abs (x : pyfloat) : pyfloat :=
  match x with
  | Fin a => Fin (Qabs a)
  | PInf | NInf => PInf
  | NaN => NaN
  end.

(** [x < y]; every comparison with [nan] is false. *)
Definition f_ltb (x y : pyfloat) : bool :=
  match x, y with
  | NaN, _ | _, NaN => false
  | Fin a, Fin b => Qlt_bool a b
  | NInf, NInf => false
  | NInf, _ => true
  | PInf, _ => false
  | Fin _, PInf => true
  | Fin _, NInf => false
  end.

(** [x <= y]. *)
Definition f_leb (x y : pyfloat) : bool :=
  match x, y with
  | NaN, _ | _, NaN => false
  | Fin a, Fin b => Qle_bool a b
  | NInf, _ => true
  | PInf, PInf => true
  | PInf, _ => false
  | Fin _, PInf => true
  | Fin _, NInf => false
  end.

Definition f_gtb (x y : pyfloat) : bool := f_ltb y x.
Definition f_geb (x y : pyfloat) : bool := f_leb y x.

(** [x ** 2]. *)
Definition f_sq (x : pyfloat) : pyfloat := f_mul x x.

(** An [int] operand of a float operation. *)
Definition of_int (n : Z) : pyfloat := Fin (inject_Z n).

(** Truth value of a float: false for zero only ([nan] and the infinities
    are true). *)
Definition float_truthy (x : pyfloat) : bool :=
  match x with
  | Fin a => negb (Qeq_bool a 0)
  | _ => true
  end.

(** [int(x)]: truncation toward zero; [OverflowError] on an infinity,
    [ValueError] on [nan]. *)
Definition py_int (x : pyfloat) : result Z :=
  match x with
  | Fin a => Ok (Z.quot (Qnum a) (Zpos (Qden a)))
  | PInf | NInf => Raise OverflowError
  | NaN => Raise ValueError
  end.

(** ** Rounding to binary64

    A float operation of the interpreter returns the double nearest to its
    exact result, ties to even, with gradual underflow below [2^-1022] and
    an infinity from [2^1024 - 2^970] on. *)

(** The integer nearest to [n / d], ties to even ([0 <= n], [0 < d]). *)
Definition round_half_even (n d : Z) : Z :=
  let q := n / d in
  let r := n mod d in
  match Z.compare (2 * r) d with
  | Lt => q
  | Gt => q + 1
  | Eq => if Z.even q then q else q + 1
  end.

(** The integer part of the binary logarithm of [n / d] ([0 < n], [0 < d]). *)
Definition floor_log2 (n d : Z) : Z :=
  let l := Z.log2 n - Z.log2 d in
  if (if 0 <=? l then d * 2 ^ l <=? n else d <=? n * 2 ^ (- l))
  then l else l - 1.

(** The double nearest to the rational [q]: a 53-bit significand [m] at
    the exponent [e], no smaller than that of the subnormals. *)
Definition binary64 (q : Q) : pyfloat :=
  let n := Z.abs (Qnum q) in
  let d := Zpos (Qden q) in
  if n =? 0 then Fin 0
  else
    let e := Z.max (floor_log2 n d - 52) (-1074) in
    let m := round_half_even (n * 2 ^ Z.max 0 (- e)) (d * 2 ^ Z.max 0 e) in
    if (971 <? e) || ((e =? 971) && (m =? 2 ^ 53))
    then (if 0 <? Qnum q then PInf else NInf)
    else Fin (Qred (inject_Z (Z.sgn (Qnum q) * m) * (2 # 1) ^ e)).

Definition round_float (x : pyfloat) : pyfloat :=
  match x with
  | Fin q => binary64 q
  | _ => x
  end.

(** [x - y] and [x / y] as the interpreter computes them. *)
Definition float_sub (x y : pyfloat) : pyfloat := round_float (f_sub x y).

Definition float_truediv (x y : pyfloat) : result pyfloat :=
  do z <- f_div x y;
  Ok (round_float z).

(** ** The platform: libm on finite arguments and float formatting *)

Record Platform : Type := {
  sin_fin : Q -> Q;
  cos_fin : Q -> Q;
  asin_fin : Q -> Q;        (* used on [-1, 1] only *)
  sqrt_fin : Q -> Q;        (* used on non-negative arguments only *)
  deg2rad : Q;              (* pi / 180 *)
  fmt_float : pyfloat -> string;          (* f"{x}" *)
  fmt_fixed : nat -> pyfloat -> string    (* f"{x:.Nf}" *)
}.

(** [str] of an [int]. *)
Definition fmt_int (n : Z) : string := NilZero.string_of_int (Z.to_int n).

Section Math.

Context (P : Platform).

Definition math_radians (x : pyfloat) : pyfloat :=
  f_mul x (Fin (deg2rad P)).

(** [math.sin], [math.cos]: [ValueError] (math domain error) on an
    infinite argument, [nan] on [nan]. *)
Definition math_sin (x : pyfloat) : result pyfloat :=
  match x with
  | Fin a => Ok (Fin (sin_fin P a))
  | NaN => Ok NaN
  | PInf | NInf => Raise ValueError
  end.

Definition math_cos (x : pyfloat) : result pyfloat :=
  match x with
  | Fin a => Ok (Fin (cos_fin P a))
  | NaN => Ok NaN
  | PInf | NInf => Raise ValueError
  end.

(** [math.sqrt]: [ValueError] on a negative argument. *)
Definition math_sqrt (x : pyfloat) : result pyfloat :=
  match x with
  | Fin a => if Qlt_bool a 0 then Raise ValueError
             else Ok (Fin (sqrt_fin P a))
  | PInf => Ok PInf
  | NInf => Raise ValueError
  | NaN => Ok NaN
  end.

(** [math.asin]: [ValueError] outside [-1, 1]. *)
Definition math_asin (x : pyfloat) : result pyfloat :=
  match x with
  | Fin a => if Qlt_bool 1 (Qabs a) then Raise ValueError
             else Ok (Fin (asin_fin P a))
  | NaN => Ok NaN
  | PInf | NInf => Raise ValueError
  end.

(** [haversine(lat1, lon1, lat2, lon2)], lines 74-80. *)
Definition haversine (lat1 lon1 lat2 lon2 : pyfloat) : result pyfloat :=
  let R := of_int 6371000 in
  let phi1 := math_radians lat1 in
  let phi2 := math_radians lat2 in
  let dphi := math_radians (f_sub lat2 lat1) in
  let dlambda := math_radians (f_sub lon2 lon1) in
  do hphi <- f_div dphi (of_int 2);
  do s1 <- math_sin hphi;
  do c1 <- math_cos phi1;
  do c2 <- math_cos phi2;
  do hlam <- f_div dlambda (of_int 2);
  do s2 <- math_sin hlam;
  let a := f_add (f_sq s1) (f_mul (f_mul c1 c2) (f_sq s2)) in
  do r <- math_sqrt a;
  do t <- math_asin r;
  Ok (f_mul (f_mul (of_int 2) R) t).

End Math.

(** ** The data model (lines 39-67) *)

Record User : Type := {
  u_id : Z;
  u_name : string;
  u_phone : option string;
  u_email : option string;
  home_lat : option pyfloat;
  home_lon : option pyfloat;
  geofence_m : Z
}.

(** A row of [sensor_reading]. [water_l] and [gas_m3] are the numbers of
    the columns: a row where one of them is NULL is not represented (see
    [stored_reading]). *)
Record SensorReading : Type := {
  r_id : Z;
  r_user_id : Z;
  r_timestamp : Z;
  lat : option pyfloat;
  lon : option pyfloat;
  water_l : pyfloat;
  gas_m3 : pyfloat;
  motion : Z;
  door_open : Z;
  meta : string
}.

Record Alert : Type := {
  a_user_id : Z;
  a_timestamp : Z;
  alert_type : string;
  a_details : string;
  sent_to : string
}.

(** What the notification sinks received. *)
Inductive Notification : Type :=
| Email (to_email subject body : string)
| Sms (to_phone message : string).

Record Store : Type := {
  users : list User;
  readings : list SensorReading;
  alerts : list Alert;
  outbox : list Notification
}.

(** ** Truth values and text *)

(** Truth value of a nullable string column: [None] and the empty string
    are false. *)
Definition str_truthy (s : option string) : option string :=
  match s with
  | Some EmptyString => None
  | other => other
  end.

(** Truth value of a nullable float column: [None] and [0.0] are false. *)
Definition coord_truthy (c : option pyfloat) : option pyfloat :=
  match c with
  | Some x => if float_truthy x then Some x else None
  | None => None
  end.

(** [needle in hay]. *)
Fixpoint contains (needle hay : string) : bool :=
  String.prefix needle hay
  || match hay with
     | EmptyString => false
     | String _ rest => contains needle rest
     end.

(** [sep.join(parts)]. *)
Definition join (sep : string) (parts : list string) : string :=
  String.concat sep parts.

(** [timestamp.hour]. *)
Definition hour (t : Z) : Z := (t / 3600000000) mod 24.

(** [timedelta(days=n)] in microseconds. *)
Definition days (n : Z) : Z := n * 86400000000.

(** ** Queries on the store *)

(** [User.query.get(user_id)]. *)
Definition User_get (st : Store) (user_id : Z) : option User :=
  List.find (fun u => u_id u =? user_id) (users st).

(** The first row of [rows] ordered by timestamp descending; among rows of
    one timestamp, whose order SQL leaves open, the earliest inserted is
    taken. *)
Fixpoint latest_of (rows : list SensorReading) : option SensorReading :=
  match rows with
  | [] => None
  | r :: rest =>
      match latest_of rest with
      | Some r' => if r_timestamp r <? r_timestamp r' then Some r' else Some r
      | None => Some r
      end
  end.

(** [SensorReading.query.filter_by(user_id=user_id)
       .order_by(SensorReading.timestamp.desc()).first()]. *)
Definition latest_reading (st : Store) (user_id : Z) : option SensorReading :=
  latest_of (List.filter (fun r => r_user_id r =? user_id) (readings st)).

(** ** Alert dispatch (lines 84-103) *)

Definition send_email (to_email subject body : string) (st : Store) : Store :=
  {| users := users st; readings := readings st; alerts := alerts st;
     outbox := outbox st ++ [Email to_email subject body] |}.

Definition send_sms (to_phone message : string) (st : Store) : Store :=
  {| users := users st; readings := readings st; alerts := alerts st;
     outbox := outbox st ++ [Sms to_phone message] |}.

Definition add_alert (a : Alert) (st : Store) : Store :=
  {| users := users st; readings := readings st; alerts := alerts st ++ [a];
     outbox := outbox st |}.

(** The address a contact column yields when the user exists and the column
    is true. *)
Definition contact (user : option User) (col : User -> option string)
  : option string :=
  match user with
  | Some u => str_truthy (col u)
  | None => None
  end.

Definition record_and_send_alert (now user_id : Z) (alert_type details : string)
  (st : Store) : Store :=
  let user := User_get st user_id in
  let sent_to : list string := [] in
  let '(st, sent_to) :=
    match contact user u_email with
    | Some email =>
        (send_email email ("[알림] " ++ alert_type) details st,
         (sent_to ++ [email])%list)
    | None => (st, sent_to)
    end in
  let '(st, sent_to) :=
    match contact user u_phone with
    | Some phone => (send_sms phone details st, (sent_to ++ [phone])%list)
    | None => (st, sent_to)
    end in
  let alert := {| a_user_id := user_id; a_timestamp := now;
                  alert_type := alert_type; a_details := details;
                  sent_to := join "," sent_to |} in
  add_alert alert st.

(** ** Baselines (lines 107-126) *)

Record Baseline : Type := {
  b_mean : pyfloat;
  b_std : pyfloat
}.

Definition is_nan (x : pyfloat) : bool :=
  match x with
  | NaN => true
  | _ => false
  end.

(** pandas reductions skip missing values ([skipna=True]). *)
Definition dropna (xs : list pyfloat) : list pyfloat :=
  List.filter (fun x => negb (is_nan x)) xs.

Definition f_sum (xs : list pyfloat) : pyfloat :=
  fold_left f_add xs (Fin 0).

Definition count (xs : list pyfloat) : Z := Z.of_nat (length xs).

(** [Series.mean()]. *)
Definition Series_mean (xs : list pyfloat) : pyfloat :=
  let ys := dropna xs in
  f_div_ieee (f_sum ys) (of_int (count ys)).

(** The columns of the data frame built from the rows. *)
Definition df_column (m : string) (rows : list SensorReading) : list pyfloat :=
  if String.eqb m "water_l" then List.map water_l rows
  else if String.eqb m "gas_m3" then List.map gas_m3 rows
  else if String.eqb m "motion" then List.map (fun r => of_int (motion r)) rows
  else [].

Section Evaluator.

Context (P : Platform).

(** [numpy.sqrt]: [nan] on a negative argument, no exception. *)
Definition np_sqrt (x : pyfloat) : pyfloat :=
  match x with
  | Fin a => if Qlt_bool a 0 then NaN else Fin (sqrt_fin P a)
  | PInf => PInf
  | NInf => NaN
  | NaN => NaN
  end.

(** [Series.std(ddof=ddof)]: the root of the sum of squared deviations
    from the mean divided by [count - ddof]; [nan] when
    [count <= ddof]. *)
Definition Series_std (ddof : Z) (xs : list pyfloat) : pyfloat :=
  let ys := dropna xs in
  if count ys <=? ddof then NaN
  else
    let avg := f_div_ieee (f_sum ys) (of_int (count ys)) in
    let sqr := List.map (fun y => f_sq (f_sub avg y)) ys in
    np_sqrt (f_div_ieee (f_sum sqr) (of_int (count ys - ddof))).

Definition compute_baselines (now user_id lookback_days : Z) (st : Store)
  : gmap string Baseline :=
  let since := now - days lookback_days in
  let rows := List.filter
                (fun r => (r_user_id r =? user_id) && (since <=? r_timestamp r))
                (readings st) in
  match rows with
  | [] => ∅
  | _ =>
      fold_left
        (fun baselines m =>
           let col := df_column m rows in
           let mean := Series_mean col in
           let std := if (1 <? length col)%nat then Series_std 0 col
                      else Fin 0 in
           <[m := {| b_mean := mean; b_std := std |}]> baselines)
        ["water_l"; "gas_m3"; "motion"] ∅
  end.

(** ** The rules of [check_latest_for_user] (lines 138-186)

    Each block of the function is a step on the pair
    [(details, high_risk)]. *)

Definition Findings : Type := (list string * bool)%type.

(** [baselines.get(m, {}).get('mean', 0)]. *)
Definition mean_or_zero (baselines : gmap string Baseline) (m : string)
  : pyfloat :=
  match baselines !! m with
  | Some b => b_mean b
  | None => of_int 0
  end.

Definition water_deviation_text (last : SensorReading) (b : Baseline)
  (z : pyfloat) : string :=
  "수도 사용량 이상: 최근=" ++ fmt_float P (water_l last)
  ++ "L, 평균=" ++ fmt_fixed P 1 (b_mean b)
  ++ "L, z=" ++ fmt_fixed P 2 z.

Definition water_spike_text (last : SensorReading) : string :=
  "수도 사용 급증: " ++ fmt_float P (water_l last)
  ++ "L (평소 거의 사용 없음)".

Definition gas_deviation_text (last : SensorReading) (b : Baseline)
  (z : pyfloat) : string :=
  "가스 사용량 이상: 최근=" ++ fmt_float P (gas_m3 last)
  ++ "m³, 평균=" ++ fmt_fixed P 2 (b_mean b)
  ++ "m³, z=" ++ fmt_fixed P 2 z.

Definition gas_spike_text (last : SensorReading) : string :=
  "가스 사용 급증: " ++ fmt_float P (gas_m3 last)
  ++ "m³ (평소 거의 사용 없음)".

Definition motion_absent_text : string :=
  "활동 이상(평소 활동적이나 현재 무활동)".

Definition motion_unexpected_text : string :=
  "활동 이상(평소 거의 없음에도 현재 활동 감지)".

Definition geofence_text (d : Z) (user : User) : string :=
  "지오펜스 이탈: 거리 " ++ fmt_int d
  ++ "m (설정 " ++ fmt_int (geofence_m user) ++ "m)".

(** The [else] branch of the water block (lines 149-151). *)
Definition water_spike_rule (baselines : gmap string Baseline)
  (last : SensorReading) (acc : Findings) : Findings :=
  let '(details, high_risk) := acc in
  if f_ltb (mean_or_zero baselines "water_l") (Fin (1 # 10))
     && f_gtb (water_l last) (of_int 5)
  then ((details ++ [water_spike_text last])%list, true)
  else (details, high_risk).

(** The water block (lines 142-151). *)
Definition water_check (baselines : gmap string Baseline)
  (last : SensorReading) (acc : Findings) : result Findings :=
  let '(details, high_risk) := acc in
  match baselines !! "water_l" with
  | Some b =>
      if f_gtb (b_std b) (of_int 0) then
        do z <- float_truediv (float_sub (water_l last) (b_mean b)) (b_std b);
        if f_geb (f_abs z) (of_int 3) then
          Ok ((details ++ [water_deviation_text last b z])%list,
              if f_gtb z (of_int 3) then true else high_risk)
        else Ok (details, high_risk)
      else Ok (water_spike_rule baselines last acc)
  | None => Ok (water_spike_rule baselines last acc)
  end.

(** The [else] branch of the gas block (lines 161-163). *)
Definition gas_spike_rule (baselines : gmap string Baseline)
  (last : SensorReading) (acc : Findings) : Findings :=
  let '(details, high_risk) := acc in
  if f_ltb (mean_or_zero baselines "gas_m3") (Fin (1 # 100))
     && f_gtb (gas_m3 last) (Fin (1 # 10))
  then ((details ++ [gas_spike_text last])%list, true)
  else (details, high_risk).

(** The gas block (lines 154-163). *)
Definition gas_check (baselines : gmap string Baseline)
  (last : SensorReading) (acc : Findings) : result Findings :=
  let '(details, high_risk) := acc in
  match baselines !! "gas_m3" with
  | Some b =>
      if f_gtb (b_std b) (of_int 0) then
        do z <- float_truediv (float_sub (gas_m3 last) (b_mean b)) (b_std b);
        if f_geb (f_abs z) (of_int 3) then
          Ok ((details ++ [gas_deviation_text last b z])%list,
              if f_gtb z (of_int 3) then true else high_risk)
        else Ok (details, high_risk)
      else Ok (gas_spike_rule baselines last acc)
  | None => Ok (gas_spike_rule baselines last acc)
  end.

(** The motion block (lines 166-171). *)
Definition motion_check (baselines : gmap string Baseline)
  (last : SensorReading) (acc : Findings) : Findings :=
  let '(details, high_risk) := acc in
  match baselines !! "motion" with
  | Some b =>
      let mean := b_mean b in
      let details :=
        if f_geb mean (Fin (1 # 2)) && (motion last =? 0)
        then (details ++ [motion_absent_text])%list else details in
      let details :=
        if f_ltb mean (Fin (2 # 10)) && (motion last =? 1)
        then (details ++ [motion_unexpected_text])%list else details in
      (details, high_risk)
  | None => acc
  end.

(** The guard [last.lat and last.lon and user.home_lat and user.home_lon]
    (lines 174 and 182): the four coordinates when all are true. *)
Definition located (last : SensorReading) (user : User)
  : option (pyfloat * pyfloat * pyfloat * pyfloat) :=
  match coord_truthy (lat last), coord_truthy (lon last),
        coord_truthy (home_lat user), coord_truthy (home_lon user) with
  | Some la, Some lo, Some hla, Some hlo => Some (la, lo, hla, hlo)
  | _, _, _, _ => None
  end.

(** The night window of line 178. *)
Definition at_night (last : SensorReading) : bool :=
  (23 <=? hour (r_timestamp last)) || (hour (r_timestamp last) <? 6).

(** The geofence block (lines 174-179). *)
Definition geofence_check (user : User) (last : SensorReading)
  (acc : Findings) : result Findings :=
  let '(details, high_risk) := acc in
  match located last user with
  | Some (la, lo, hla, hlo) =>
      do d <- haversine P la lo hla hlo;
      if f_gtb d (of_int (geofence_m user)) then
        do di <- py_int d;
        Ok ((details ++ [geofence_text di user])%list,
            if at_night last then true else high_risk)
      else Ok (details, high_risk)
  | None => Ok acc
  end.

(** The test of line 185 on one finding. *)
Definition marked (s : string) : bool :=
  contains "급증" s || contains "이상" s.

(** The composite block (lines 182-186). *)
Definition composite_check (user : User) (last : SensorReading)
  (acc : Findings) : result Findings :=
  let '(details, high_risk) := acc in
  match located last user with
  | Some (la, lo, hla, hlo) =>
      do d <- haversine P la lo hla hlo;
      let at_home := f_leb d (of_int (geofence_m user)) in
      if at_home && existsb marked details then Ok (details, true)
      else Ok (details, high_risk)
  | None => Ok acc
  end.

(** Lines 138-186: the five blocks in order, from no finding and
    [high_risk = False]. *)
Definition evaluate_rules (user : User) (last : SensorReading)
  (baselines : gmap string Baseline) : result Findings :=
  do acc <- water_check baselines last ([], false);
  do acc <- gas_check baselines last acc;
  let acc := motion_check baselines last acc in
  do acc <- geofence_check user last acc;
  composite_check user last acc.

(** Lines 188-191. *)
Definition dispatch (now user_id : Z) (acc : Findings) (st : Store) : Store :=
  let '(details, high_risk) := acc in
  match details with
  | [] => st
  | _ =>
      let level := if high_risk then "HIGH" else "LOW" in
      let rec := join "; " details in
      record_and_send_alert now user_id (level ++ " 이상징후") rec st
  end.

Definition check_latest_for_user (now user_id : Z) (st : Store)
  : result Store :=
  match User_get st user_id with
  | None => Ok st
  | Some user =>
      match latest_reading st user_id with
      | None => Ok st
      | Some last =>
          let baselines := compute_baselines now user_id 14 st in
          do acc <- evaluate_rules user last baselines;
          Ok (dispatch now user_id acc st)
      end
  end.

(** ** The sweep (lines 197-201)

    The loop over the users fetched before it starts; an exception leaves
    the loop, and what earlier iterations committed stays in the store. *)
Fixpoint check_each (now : Z) (us : list User) (st : Store)
  : Store * option exn :=
  match us with
  | [] => (st, None)
  | u :: rest =>
      match check_latest_for_user now (u_id u) st with
      | Ok st' => check_each now rest st'
      | Raise e => (st, Some e)
      end
  end.

Definition periodic_check_all (now : Z) (st : Store) : Store * option exn :=
  let users := users st in
  check_each now users st.

End Evaluator.

(** ** A reference platform

    Rational stand-ins for libm, for running the embedding on concrete
    inputs: truncated power series for the trigonometric functions, an
    integer square root scaled by [10^12], [355/113] for pi, and decimal
    formatting of the exact rational. *)

Module RefPlatform.

Definition cube (x : Q) : Q := x * x * x.
Definition fifth (x : Q) : Q := cube x * x * x.

Definition sin (x : Q) : Q :=
  Qred (x - cube x / 6 + fifth x / 120).

Definition cos (x : Q) : Q :=
  Qred (1 - x * x / 2 + x * x * x * x / 24).

Definition asin (x : Q) : Q :=
  Qred (x + cube x / 6 + (3 # 40) * fifth x).

Definition scale : Z := 10 ^ 12.

Definition sqrt (x : Q) : Q :=
  Qred (Qmake (Z.sqrt (Qnum x * Zpos (Qden x) * scale * scale))
              (Qden x * Z.to_pos scale)).

Definition pi_180 : Q := 355 # 20340.

(** The [n] low decimal digits of [v], most significant first. *)
Fixpoint digits (n : nat) (v : Z) : string :=
  match n with
  | O => EmptyString
  | S n' => digits n' (v / 10) ++ fmt_int (v mod 10)
  end.

(** [|q| * 10^n] rounded to the nearest integer, ties to even. *)
Definition scaled (n : nat) (q : Q) : Z :=
  let num := Z.abs (Qnum q) * 10 ^ Z.of_nat n in
  let den := Zpos (Qden q) in
  let lo := num / den in
  let twice := 2 * (num mod den) in
  if twice <? den then lo
  else if den <? twice then lo + 1
  else if Z.even lo then lo else lo + 1.

Definition fixed (n : nat) (x : pyfloat) : string :=
  match x with
  | Fin q =>
      let v := scaled n q in
      let whole := fmt_int (v / 10 ^ Z.of_nat n) in
      let sign := if Qnum q <? 0 then "-" else EmptyString in
      match n with
      | O => sign ++ whole
      | _ => sign ++ whole ++ "." ++ digits n v
      end
  | PInf => "inf"
  | NInf => "-inf"
  | NaN => "nan"
  end.

Fixpoint drop_zeros (l : list ascii) : list ascii :=
  match l with
  | c :: rest => if Ascii.eqb c "0"%char then drop_zeros rest else l
  | [] => []
  end.

(** Drops the zeros that end [s]; ["0"] when nothing else is left. *)
Definition strip_zeros (s : string) : string :=
  match List.rev (drop_zeros (List.rev (list_ascii_of_string s))) with
  | [] => "0"
  | l => string_of_list_ascii l
  end.

(** The shortest decimal text with at least one fractional digit, of at
    most twelve. *)
Definition repr (x : pyfloat) : string :=
  match x with
  | Fin q =>
      let v := scaled 12 q in
      let sign := if Qnum q <? 0 then "-" else EmptyString in
      sign ++ fmt_int (v / scale) ++ "." ++ strip_zeros (digits 12 v)
  | PInf => "inf"
  | NInf => "-inf"
  | NaN => "nan"
  end.

Definition platform : Platform :=
  {| sin_fin := sin; cos_fin := cos; asin_fin := asin; sqrt_fin := sqrt;
     deg2rad := pi_180; fmt_float := repr; fmt_fixed := fixed |}.

End RefPlatform.

(** ** Scenarios *)

Module Scenario.

Definition ref := RefPlatform.platform.

Definition hours (n : Z) : Z := n * 3600000000.

(** Day 100, 12:00. *)
Definition noon : Z := days 100 + hours 12.

Definition alice : User :=
  {| u_id := 1; u_name := "Alice"; u_phone := Some "010-1234-5678";
     u_email := Some "alice@example.org";
     home_lat := Some (Fin (375 # 10)); home_lon := Some (Fin 127);
     geofence_m := 300 |}.

(** A reading of user [uid] at time [t], at Alice's home. *)
Definition reading (uid t : Z) (water gas : Q) (mot : Z) : SensorReading :=
  {| r_id := 0; r_user_id := uid; r_timestamp := t;
     lat := Some (Fin (375 # 10)); lon := Some (Fin 127);
     water_l := Fin water; gas_m3 := Fin gas; motion := mot;
     door_open := 0; meta := "{}" |}.

Definition store (us : list User) (rs : list SensorReading) : Store :=
  {| users := us; readings := rs; alerts := []; outbox := [] |}.

(** Baselines with unit mean and unit deviation for water and gas. *)
Definition unit_baselines : gmap string Baseline :=
  <["gas_m3" := {| b_mean := Fin 1; b_std := Fin 1 |}]>
    (<["water_l" := {| b_mean := Fin 1; b_std := Fin 1 |}]> ∅).

(** Water at [z = 3], gas at [z = 4]. *)
Definition z3_reading : SensorReading := reading 1 noon 4 5 0.

(** About 1.1 km north of Alice's home, at 02:00. *)
Definition away_at_night : SensorReading :=
  {| r_id := 0; r_user_id := 1; r_timestamp := days 100 + hours 2;
     lat := Some (Fin (3751 # 100)); lon := Some (Fin 127);
     water_l := Fin 0; gas_m3 := Fin 0; motion := 0;
     door_open := 0; meta := "{}" |}.

(** The same place at 14:00. *)
Definition away_at_day : SensorReading :=
  {| r_id := 0; r_user_id := 1; r_timestamp := days 100 + hours 14;
     lat := Some (Fin (3751 # 100)); lon := Some (Fin 127);
     water_l := Fin 0; gas_m3 := Fin 0; motion := 0;
     door_open := 0; meta := "{}" |}.

(** On the equator, some 4170 km south of Alice's home. *)
Definition on_equator : SensorReading :=
  {| r_id := 0; r_user_id := 1; r_timestamp := noon;
     lat := Some (Fin 0); lon := Some (Fin 127);
     water_l := Fin 0; gas_m3 := Fin 0; motion := 0;
     door_open := 0; meta := "{}" |}.

(** Alice, usually active, now still and at home. *)
Definition still_at_home : Store :=
  store [alice] [reading 1 (noon - hours 2) 1 0 1;
                 reading 1 (noon - hours 1) 1 0 0].

(** Alice's only reading is twenty days old and shows six litres. *)
Definition stale_reading : SensorReading :=
  reading 1 (noon - days 20) 6 0 0.

Definition stale_history : Store := store [alice] [stale_reading].

(** Dan has no contact column filled in. *)
Definition dan : User :=
  {| u_id := 3; u_name := "Dan"; u_phone := None; u_email := Some EmptyString;
     home_lat := None; home_lon := None; geofence_m := 500 |}.

(** Carol has no home coordinates; her only reading is twenty days old
    and shows six litres. *)
Definition carol : User :=
  {| u_id := 2; u_name := "Carol"; u_phone := Some "010-9999-0000";
     u_email := None; home_lat := None; home_lon := None;
     geofence_m := 500 |}.

(** A reading of Alice whose latitude was uploaded as [1e999], which the
    JSON parser reads as [inf]. *)
Definition infinite_latitude : SensorReading :=
  {| r_id := 0; r_user_id := 1; r_timestamp := noon - hours 1;
     lat := Some PInf; lon := Some (Fin 127);
     water_l := Fin 0; gas_m3 := Fin 0; motion := 0;
     door_open := 0; meta := "{}" |}.

Definition sweep_store : Store :=
  store [alice; carol]
    [infinite_latitude; reading 2 (noon - days 20) 6 0 0].

(** The same subjects and readings, Carol first. *)
Definition late_failure : Store :=
  store [carol; alice]
    [infinite_latitude; reading 2 (noon - days 20) 6 0 0].

(** A water baseline whose mean, the double written [1e-17], is below the
    last bit of a reading of three litres. *)
Definition tiny_mean : Baseline :=
  {| b_mean := binary64 (1 # 100000000000000000); b_std := Fin 1 |}.

Definition tiny_mean_baselines : gmap string Baseline :=
  <["water_l" := tiny_mean]> ∅.

Definition three_litres : SensorReading := reading 1 noon 3 0 0.

(** Two readings of Alice inside the window: 1 and 3 litres. *)
Definition two_readings : Store :=
  store [alice] [reading 1 (noon - hours 2) 1 0 1;
                 reading 1 (noon - hours 1) 3 0 0].


End Scenario.


(** ** Reference quantities of the rules *)

(** The z-score of an observed value against a baseline: the difference
    and the quotient, each rounded to binary64. *)
Definition zscore (x : pyfloat) (b : Baseline) : pyfloat :=
  round_float (f_div_ieee (float_sub x (b_mean b)) (b_std b)).

(** The address a notification went to. *)
Definition recipient (n : Notification) : string :=
  match n with
  | Email to_email _ _ => to_email
  | Sms to_phone _ => to_phone
  end.

(** The contacts of a subject that a dispatch attempts: the e-mail address,
    then the phone number, each when the subject exists and has it. *)
Definition attempted (st : Store) (user_id : Z) : list string :=
  match User_get st user_id with
  | Some u =>
      (match str_truthy (u_email u) with Some e => [e] | None => [] end)
      ++ (match str_truthy (u_phone u) with Some p => [p] | None => [] end)
  | None => []
  end.

(** The subject is absent from the store, or has neither e-mail nor
    phone (a column that is missing or empty). *)
Definition no_contact (st : Store) (user_id : Z) : bool :=
  match User_get st user_id with
  | Some u =>
      match str_truthy (u_email u), str_truthy (u_phone u) with
      | None, None => true
      | _, _ => false
      end
  | None => true
  end.

(** The sweep as the specification words it: every subject is evaluated, a
    failing evaluation is skipped and the sweep goes on with the next
    subject. *)
Fixpoint isolated_check_each (P : Platform) (now : Z) (us : list User)
  (st : Store) : Store :=
  match us with
  | [] => st
  | u :: rest =>
      match check_latest_for_user P now (u_id u) st with
      | Ok st' => isolated_check_each P now rest st'
      | Raise _ => isolated_check_each P now rest st
      end
  end.

(** The subjects of [us] are evaluated one after another from the store
    [st], none of the evaluations raises, and the store is [st'] at the
    end. *)
Inductive evaluated (P : Platform) (now : Z)
  : list User -> Store -> Store -> Prop :=
| evaluated_nil (st : Store) : evaluated P now [] st st
| evaluated_cons (u : User) (rest : list User) (st st1 st' : Store) :
    check_latest_for_user P now (u_id u) st = Ok st1 ->
    evaluated P now rest st1 st' ->
    evaluated P now (u :: rest) st st'.








(** The readings of a subject inside the lookback window. *)
Definition window (now user_id lookback_days : Z) (st : Store)
  : list SensorReading :=
  List.filter
    (fun r => (r_user_id r =? user_id)
              && (now - days lookback_days <=? r_timestamp r))
    (readings st).

(** A float that is a number or [nan], not an infinity. *)
Definition finite_or_nan (x : pyfloat) : Prop :=
  match x with
  | Fin _ | NaN => True
  | PInf | NInf => False
  end.

(** ** The HTTP API (lines 238-286)

    A request body is taken after its decoding: a field holds a value of
    its column's type, or nothing when the key is missing or null. A body
    on which a conversion of lines 242-250 raises never reaches the store
    and is not represented. *)




Definition add_reading (r : SensorReading) (st : Store) : Store :=
  {| users := users st; readings := readings st ++ [r]; alerts := alerts st;
     outbox := outbox st |}.






(** [order_by(Alert.timestamp.desc())]: rows of one timestamp, whose order
    SQL leaves open, keep their order of insertion. *)
Fixpoint insert_desc (a : Alert) (l : list Alert) : list Alert :=
  match l with
  | [] => [a]
  | b :: rest =>
      if a_timestamp b <=? a_timestamp a then a :: l
      else b :: insert_desc a rest
  end.

Definition order_by_timestamp_desc (l : list Alert) : list Alert :=
  fold_right insert_desc [] l.

(** [api_alerts] (lines 272-286): the rows of the response; the
    [user_id] argument is missing or empty, or a number. *)
Definition api_alerts (user_id : option Z) (st : Store) : list Alert :=
  let q := alerts st in
  let q := match user_id with
           | Some uid => List.filter (fun a => a_user_id a =? uid) q
           | None => q
           end in
  firstn 200 (order_by_timestamp_desc q).

(** ** Further reference quantities *)

Definition is_inf (x : pyfloat) : bool :=
  match x with
  | PInf | NInf => true
  | _ => false
  end.


(** The alerts that a request for [user_id] selects. *)
Definition matching (user_id : option Z) (st : Store) : list Alert :=
  match user_id with
  | Some uid => List.filter (fun a => a_user_id a =? uid) (alerts st)
  | None => alerts st
  end.

(** [a] is not older than [b]. *)
Definition newer_first (a b : Alert) : Prop :=
  a_timestamp b <= a_timestamp a.


(** ** Rows as SQLite hands them back

    SQLite stores [nan] as NULL, so a row read back holds no [nan]. A NULL
    coordinate is [None]. A NULL measure has no value in [SensorReading]
    ([water_l] and [gas_m3] are floats), and on such a row lines 143-161
    raise [TypeError]: the properties that depend on the measures are
    stated for rows whose measures are numbers. *)







(** What one evaluation may change in the store. *)
Definition grown_by_check (now user_id : Z) (st st' : Store) : Prop :=
  users st' = users st
  /\ readings st' = readings st
  /\ (exists new,
        alerts st' = (alerts st ++ new)%list
        /\ (length new <= 1)%nat
        /\ Forall (fun a => a_user_id a = user_id /\ a_timestamp a = now) new
        /\ exists notes,
             outbox st' = (outbox st ++ notes)%list
             /\ (length notes <= 2 * length new)%nat).

(** Further concrete cases. *)
Module Cases.



Definition alert_at (uid t : Z) : Alert :=
  {| a_user_id := uid; a_timestamp := t; alert_type := "LOW 이상징후";
     a_details := "x"; sent_to := EmptyString |}.

Definition three_alerts : Store :=
  {| users := []; readings := [];
     alerts := [alert_at 1 5; alert_at 2 9; alert_at 1 7]; outbox := [] |}.

(** A reading of Carol, one hour before noon. *)
Definition carol_reading : SensorReading :=
  Scenario.reading 2 (Scenario.noon - Scenario.hours 1) 9 0 1.

End Cases.

(** * Properties *)

(** ** Comparisons of floats *)

Lemma Qlt_bool_iff (a b : Q) : Qlt_bool a b = true <-> (a < b)%Q.
Proof.
  unfold Qlt_bool. rewrite negb_true_iff.
  destruct (Qle_bool b a) eqn:E.
  - apply Qle_bool_iff in E. split; [discriminate | intros H; lra].
  - split; [intros _ | reflexivity].
    apply Qnot_le_lt. intros H. apply Qle_bool_iff in H. congruence.
Qed.


Lemma Qle_bool_false_iff (a b : Q) : Qle_bool a b = false <-> (b < a)%Q.
Proof.
  rewrite <- Qlt_bool_iff. unfold Qlt_bool.
  destruct (Qle_bool a b); simpl; split; congruence.
Qed.

Lemma Qeq_bool_false_of_pos (b : Q) : (0 < b)%Q -> Qeq_bool b 0 = false.
Proof.
  intros H. destruct (Qeq_bool b 0) eqn:E; [| reflexivity].
  apply Qeq_bool_iff in E. lra.
Qed.

(** [x <= y] and [x > y] exclude each other. *)
Lemma f_leb_gtb_excl (x y : pyfloat) : f_leb x y && f_gtb x y = false.
Proof.
  unfold f_gtb.
  destruct x as [a| | |], y as [b| | |]; simpl; try reflexivity.
  unfold Qlt_bool. destruct (Qle_bool a b); reflexivity.
Qed.

Lemma f_leb_true_gtb_false (x y : pyfloat) :
  f_leb x y = true -> f_gtb x y = false.
Proof.
  intros H. pose proof (f_leb_gtb_excl x y) as E.
  rewrite H in E. exact E.
Qed.

(** [z > y] implies [z >= y]. *)
Lemma f_gtb_geb (z y : pyfloat) : f_gtb z y = true -> f_geb z y = true.
Proof.
  unfold f_gtb, f_geb.
  destruct z as [a| | |], y as [b| | |]; simpl; try congruence.
  intros H. apply Qlt_bool_iff in H. apply Qle_bool_iff. lra.
Qed.

(** [|z| >= 3] is [z >= 3 or z <= -3]. *)
Lemma f_abs_geb_3 (z : pyfloat) :
  f_geb (f_abs z) (of_int 3)
  = f_geb z (of_int 3) || f_leb z (of_int (-3)).
Proof.
  unfold f_geb, of_int.
  destruct z as [a| | |]; simpl; try reflexivity.
  apply eq_true_iff_eq.
  rewrite orb_true_iff, !Qle_bool_iff.
  change (inject_Z 3) with 3%Q. change (inject_Z (-3)) with (-3)%Q.
  split.
  - intros H. destruct (Qlt_le_dec a 0) as [Hn | Hp].
    + right. rewrite Qabs_neg in H by lra. lra.
    + left. rewrite Qabs_pos in H by lra. exact H.
  - intros [H | H].
    + rewrite Qabs_pos by lra. exact H.
    + rewrite Qabs_neg by lra. lra.
Qed.

(** A deviation upward beyond 3 is a deviation: [z > 3] implies
    [|z| >= 3]. *)
Lemma f_gtb_3_abs (z : pyfloat) :
  f_gtb z (of_int 3) = true -> f_geb (f_abs z) (of_int 3) = true.
Proof.
  intros H. rewrite f_abs_geb_3, (f_gtb_geb _ _ H). reflexivity.
Qed.

(** Under the guard [std > 0] the division of the z-score does not
    raise. *)
Lemma f_div_guarded (x s : pyfloat) :
  f_gtb s (of_int 0) = true -> f_div x s = Ok (f_div_ieee x s).
Proof.
  unfold f_gtb, f_div, of_int.
  destruct s as [b| | |]; simpl; try congruence.
  intros H. apply Qlt_bool_iff in H. change (inject_Z 0) with 0%Q in H.
  rewrite Qeq_bool_false_of_pos by exact H. reflexivity.
Qed.

Lemma float_truediv_guarded (x s : pyfloat) :
  f_gtb s (of_int 0) = true ->
  float_truediv x s = Ok (round_float (f_div_ieee x s)).
Proof.
  intros H. unfold float_truediv. rewrite (f_div_guarded _ _ H). reflexivity.
Qed.

(** ** The z-score rule *)

Ltac split_flags :=
  repeat match goal with
         | |- context [if ?c then _ else _] => destruct c eqn:?
         end.

(** C3. With a water (respectively gas) baseline whose standard deviation is
    positive and [z = (latest - mean) / std], the difference and the quotient
    rounded to binary64 as lines 143 and 155 compute them, the block appends
    its deviation
    finding exactly when [|z| >= 3] and raises [high_risk] exactly when
    [z > 3]; [|z| >= 3] is [z >= 3 or z <= -3], and no [z <= 3] (so neither
    a downward deviation nor [z = 3]) is [z > 3]. *)
Theorem deviation_rule (P : Platform) (baselines : gmap string Baseline)
  (last : SensorReading) (details : list string) (high_risk : bool) :
  (forall b, baselines !! "water_l" = Some b ->
             f_gtb (b_std b) (of_int 0) = true ->
     let z := zscore (water_l last) b in
     water_check P baselines last (details, high_risk)
     = Ok (if f_geb (f_abs z) (of_int 3)
           then (details ++ [water_deviation_text P last b z])%list
           else details,
           high_risk || f_gtb z (of_int 3))
     /\ f_geb (f_abs z) (of_int 3)
        = f_geb z (of_int 3) || f_leb z (of_int (-3))
     /\ f_leb z (of_int 3) && f_gtb z (of_int 3) = false)
  /\
  (forall b, baselines !! "gas_m3" = Some b ->
             f_gtb (b_std b) (of_int 0) = true ->
     let z := zscore (gas_m3 last) b in
     gas_check P baselines last (details, high_risk)
     = Ok (if f_geb (f_abs z) (of_int 3)
           then (details ++ [gas_deviation_text P last b z])%list
           else details,
           high_risk || f_gtb z (of_int 3))
     /\ f_geb (f_abs z) (of_int 3)
        = f_geb z (of_int 3) || f_leb z (of_int (-3))
     /\ f_leb z (of_int 3) && f_gtb z (of_int 3) = false).
Proof.
  split; intros b Hb Hstd z; subst z;
    (split; [| split; [apply f_abs_geb_3 | apply f_leb_gtb_excl]]).
  - unfold water_check. rewrite Hb, Hstd, float_truediv_guarded by exact Hstd.
    unfold rbind, zscore.
    destruct (f_gtb _ (of_int 3)) eqn:Hgt.
    + rewrite (f_gtb_3_abs _ Hgt), orb_true_r. reflexivity.
    + rewrite orb_false_r. split_flags; reflexivity.
  - unfold gas_check. rewrite Hb, Hstd, float_truediv_guarded by exact Hstd.
    unfold rbind, zscore.
    destruct (f_gtb _ (of_int 3)) eqn:Hgt.
    + rewrite (f_gtb_3_abs _ Hgt), orb_true_r. reflexivity.
    + rewrite orb_false_r. split_flags; reflexivity.
Qed.

Lemma deviation_rule_witness :
  let b := {| b_mean := Fin 1; b_std := Fin 1 |} in
  (Scenario.unit_baselines !! "water_l" = Some b
   /\ f_gtb (b_std b) (of_int 0) = true
   /\ water_check Scenario.ref Scenario.unit_baselines Scenario.z3_reading
        ([], false)
      = Ok (["수도 사용량 이상: 최근=4.0L, 평균=1.0L, z=3.00"], false))
  /\
  (Scenario.unit_baselines !! "gas_m3" = Some b
   /\ f_gtb (b_std b) (of_int 0) = true
   /\ gas_check Scenario.ref Scenario.unit_baselines Scenario.z3_reading
        ([], false)
      = Ok (["가스 사용량 이상: 최근=5.0m³, 평균=1.00m³, z=4.00"], true))
  /\
  (Scenario.tiny_mean_baselines !! "water_l" = Some Scenario.tiny_mean
   /\ f_gtb (b_std Scenario.tiny_mean) (of_int 0) = true
   /\ f_ltb (f_div_ieee (f_sub (Fin 3) (b_mean Scenario.tiny_mean))
               (b_std Scenario.tiny_mean)) (of_int 3) = true
   /\ zscore (water_l Scenario.three_litres) Scenario.tiny_mean = Fin 3
   /\ water_check Scenario.ref Scenario.tiny_mean_baselines
        Scenario.three_litres ([], false)
      = Ok (["수도 사용량 이상: 최근=3.0L, 평균=0.0L, z=3.00"], false)).
Proof.
  intros b.
  destruct (deviation_rule Scenario.ref Scenario.unit_baselines
              Scenario.z3_reading [] false) as [Hw Hg].
  destruct (deviation_rule Scenario.ref Scenario.tiny_mean_baselines
              Scenario.three_litres [] false) as [Ht _].
  split; [| split].
  3: {
    assert (H1 : Scenario.tiny_mean_baselines !! "water_l"
                 = Some Scenario.tiny_mean) by (vm_compute; reflexivity).
    assert (H2 : f_gtb (b_std Scenario.tiny_mean) (of_int 0) = true)
      by reflexivity.
    destruct (Ht _ H1 H2) as [E _].
    split; [exact H1 | split; [exact H2 |]].
    split; [vm_compute; reflexivity |].
    split; [vm_compute; reflexivity |].
    rewrite E. vm_compute. reflexivity.
  }
  - assert (H1 : Scenario.unit_baselines !! "water_l" = Some b)
      by (vm_compute; reflexivity).
    assert (H2 : f_gtb (b_std b) (of_int 0) = true) by reflexivity.
    destruct (Hw b H1 H2) as [E _].
    split; [exact H1 | split; [exact H2 |]].
    rewrite E. vm_compute. reflexivity.
  - assert (H1 : Scenario.unit_baselines !! "gas_m3" = Some b)
      by (vm_compute; reflexivity).
    assert (H2 : f_gtb (b_std b) (of_int 0) = true) by reflexivity.
    destruct (Hg b H1 H2) as [E _].
    split; [exact H1 | split; [exact H2 |]].
    rewrite E. vm_compute. reflexivity.
Defined.

(** ** The geofence rule *)

Lemma math_asin_finite_or_nan (P : Platform) (x t : pyfloat) :
  math_asin P x = Ok t -> finite_or_nan t.
Proof.
  destruct x as [a| | |]; simpl; try discriminate.
  - destruct (Qlt_bool 1 (Qabs a)); [discriminate |].
    intros H. injection H as <-. exact I.
  - intros H. injection H as <-. exact I.
Qed.

(** A distance that [haversine] returns is a number or [nan], never an
    infinity. *)
Lemma haversine_finite_or_nan (P : Platform) (la lo hla hlo d : pyfloat) :
  haversine P la lo hla hlo = Ok d -> finite_or_nan d.
Proof.
  unfold haversine, rbind.
  repeat match goal with
         | |- context [match ?r with Ok _ => _ | Raise _ => _ end] =>
             destruct r eqn:?; try discriminate
         end.
  intros H. injection H as <-.
  match goal with
  | H : math_asin _ _ = Ok ?t |- _ =>
      apply math_asin_finite_or_nan in H; destruct t; simpl in *;
      try contradiction; exact I
  end.
Qed.

Lemma hour_range (t : Z) : 0 <= hour t < 24.
Proof. unfold hour. apply Z.mod_pos_bound. lia. Qed.

Lemma at_night_iff (last : SensorReading) :
  at_night last = true
  <-> (23 <= hour (r_timestamp last) < 24 \/ 0 <= hour (r_timestamp last) < 6).
Proof.
  unfold at_night. pose proof (hour_range (r_timestamp last)).
  rewrite orb_true_iff, Z.leb_le, Z.ltb_lt. lia.
Qed.

Lemma at_day_iff (last : SensorReading) :
  at_night last = false <-> 6 <= hour (r_timestamp last) < 23.
Proof.
  unfold at_night. pose proof (hour_range (r_timestamp last)).
  rewrite orb_false_iff, Z.leb_gt, Z.ltb_ge. lia.
Qed.

(** C4. When the geofence block runs and computes the distance [d], it
    appends its finding exactly when [d > geofence_m], and raises
    [high_risk] exactly when that breach comes with a timestamp hour in
    [23,24) or [0,6); with an hour in [6,23) the breach gives the finding
    and leaves [high_risk] as it was. *)
Theorem geofence_rule (P : Platform) (user : User) (last : SensorReading)
  (details : list string) (high_risk : bool) (la lo hla hlo d : pyfloat) :
  located last user = Some (la, lo, hla, hlo) ->
  haversine P la lo hla hlo = Ok d ->
  let breach := f_gtb d (of_int (geofence_m user)) in
  (exists di,
     (py_int d = Ok di \/ breach = false)
     /\ geofence_check P user last (details, high_risk)
        = Ok (if breach then (details ++ [geofence_text di user])%list
              else details,
              high_risk || (breach && at_night last)))
  /\ (at_night last = true
      <-> (23 <= hour (r_timestamp last) < 24
           \/ 0 <= hour (r_timestamp last) < 6))
  /\ (at_night last = false <-> 6 <= hour (r_timestamp last) < 23).
Proof.
  intros Hloc Hd breach.
  split; [| split; [apply at_night_iff | apply at_day_iff]].
  unfold geofence_check. rewrite Hloc, Hd. unfold rbind. fold breach.
  pose proof (haversine_finite_or_nan _ _ _ _ _ _ Hd) as Hfin.
  destruct breach eqn:Hb.
  - destruct d as [q| | |]; simpl in Hfin; try contradiction.
    + exists (Z.quot (Qnum q) (Zpos (Qden q))). simpl.
      split; [left; reflexivity |].
      destruct (at_night last), high_risk; reflexivity.
    + discriminate Hb.
  - exists 0. split; [right; reflexivity |].
    rewrite orb_false_r. reflexivity.
Qed.

Lemma geofence_rule_witness :
  located Scenario.away_at_night Scenario.alice
  = Some (Fin (3751 # 100), Fin 127, Fin (375 # 10), Fin 127)
  /\ (exists d,
        haversine Scenario.ref (Fin (3751 # 100)) (Fin 127)
          (Fin (375 # 10)) (Fin 127) = Ok d
        /\ f_gtb d (of_int 300) = true)
  /\ geofence_check Scenario.ref Scenario.alice Scenario.away_at_night
       ([], false)
     = Ok (["지오펜스 이탈: 거리 1111m (설정 300m)"], true)
  /\ geofence_check Scenario.ref Scenario.alice Scenario.away_at_day
       ([], false)
     = Ok (["지오펜스 이탈: 거리 1111m (설정 300m)"], false).
Proof.
  assert (Hloc : located Scenario.away_at_night Scenario.alice
                 = Some (Fin (3751 # 100), Fin 127, Fin (375 # 10), Fin 127))
    by reflexivity.
  destruct (haversine Scenario.ref (Fin (3751 # 100)) (Fin 127)
              (Fin (375 # 10)) (Fin 127)) as [d |] eqn:Hd;
    [| vm_compute in Hd; discriminate Hd].
  destruct (geofence_rule Scenario.ref Scenario.alice Scenario.away_at_night
              [] false _ _ _ _ d Hloc Hd) as [[di [Hdi E]] _].
  destruct (geofence_rule Scenario.ref Scenario.alice Scenario.away_at_day
              [] false _ _ _ _ d Hloc Hd) as [[di' [Hdi' E']] _].
  cbv zeta in *.
  assert (Hb : f_gtb d (of_int 300) = true).
  { pose proof Hd as Hd'. vm_compute in Hd'. injection Hd' as <-.
    vm_compute. reflexivity. }
  change (geofence_m Scenario.alice) with 300 in *.
  destruct Hdi as [Hdi | Hdi]; [| congruence].
  destruct Hdi' as [Hdi' | Hdi']; [| congruence].
  assert (Hi : py_int d = Ok 1111).
  { pose proof Hd as Hd'. vm_compute in Hd'. injection Hd' as <-.
    vm_compute. reflexivity. }
  rewrite Hi in Hdi, Hdi'. injection Hdi as <-. injection Hdi' as <-.
  split; [exact Hloc | split; [| split]].
  - exists d. split; [reflexivity | exact Hb].
  - rewrite E, Hb. vm_compute. reflexivity.
  - rewrite E', Hb. vm_compute. reflexivity.
Defined.

(** ** Presence of coordinates *)

(** C5. A reading whose latitude is present and equal to [0.0] fails the
    guard of lines 174 and 182: the geofence block and the composite block
    both leave the findings and [high_risk] untouched and compute no
    distance, whatever the other fields, the user and the platform are. For
    a reading on the equator at longitude 127 and a home at (37.5, 127) with
    a radius of 300 m, the distance that was not computed exceeds the
    radius. *)
Theorem zero_latitude_skips_geofence (P : Platform) (user : User)
  (acc : Findings) (rid uid t m dr : Z) (lo : option pyfloat)
  (w g : pyfloat) (mt : string) :
  let last := {| r_id := rid; r_user_id := uid; r_timestamp := t;
                 lat := Some (Fin 0); lon := lo;
                 water_l := w; gas_m3 := g; motion := m;
                 door_open := dr; meta := mt |} in
  located last user = None
  /\ geofence_check P user last acc = Ok acc
  /\ composite_check P user last acc = Ok acc
  /\ (exists d,
        haversine Scenario.ref (Fin 0) (Fin 127) (Fin (375 # 10)) (Fin 127)
        = Ok d
        /\ f_gtb d (of_int 300) = true)
  /\ geofence_check Scenario.ref Scenario.alice Scenario.on_equator ([], false)
     = Ok ([], false).
Proof.
  intros last.
  assert (Hloc : located last user = None) by reflexivity.
  destruct acc as [details high_risk].
  unfold geofence_check, composite_check. rewrite Hloc.
  repeat split.
  - destruct (haversine Scenario.ref (Fin 0) (Fin 127) (Fin (375 # 10))
                (Fin 127)) as [d |] eqn:Hd;
      [| vm_compute in Hd; discriminate Hd].
    exists d. split; [reflexivity |].
    vm_compute in Hd. injection Hd as <-. vm_compute. reflexivity.
Qed.

(** ** The composite rule *)

Lemma prefix_app (n s t : string) :
  String.prefix n s = true -> String.prefix n (s ++ t) = true.
Proof.
  revert s. induction n as [| c n IH]; intros s H.
  - destruct (s ++ t); reflexivity.
  - destruct s as [| c' s]; simpl in *; [discriminate |].
    destruct (Ascii.ascii_dec c c'); [apply IH; exact H | discriminate].
Qed.

(** A marker found in a text is found in every extension of it. *)
Lemma contains_app (n s t : string) :
  contains n s = true -> contains n (s ++ t) = true.
Proof.
  induction s as [| c s IH]; intros H.
  - simpl in H. rewrite orb_false_r in H.
    destruct n; [| discriminate]. destruct t; reflexivity.
  - cbn [contains] in H. apply orb_true_iff in H as [H | H].
    + change (String c s ++ t) with (String c (s ++ t)).
      cbn [contains]. apply orb_true_iff. left.
      apply (prefix_app n (String c s) t H).
    + change (String c s ++ t) with (String c (s ++ t)).
      cbn [contains]. apply orb_true_iff. right. apply IH, H.
Qed.

(** Every finding of the water, gas and motion blocks carries a marker of
    line 185. *)
Lemma resource_findings_marked (P : Platform) (last : SensorReading)
  (b : Baseline) (z : pyfloat) :
  marked (water_deviation_text P last b z) = true
  /\ marked (water_spike_text P last) = true
  /\ marked (gas_deviation_text P last b z) = true
  /\ marked (gas_spike_text P last) = true.
Proof.
  unfold marked. split; [| split; [| split]]; apply orb_true_iff.
  - right. refine (contains_app _ "수도 사용량 이상: 최근=" _ _).
    vm_compute. reflexivity.
  - left. refine (contains_app _ "수도 사용 급증: " _ _).
    vm_compute. reflexivity.
  - right. refine (contains_app _ "가스 사용량 이상: 최근=" _ _).
    vm_compute. reflexivity.
  - left. refine (contains_app _ "가스 사용 급증: " _ _).
    vm_compute. reflexivity.
Qed.

Lemma motion_findings_marked :
  marked motion_absent_text = true /\ marked motion_unexpected_text = true.
Proof. split; vm_compute; reflexivity. Qed.

(** What the composite block does: it raises [high_risk] exactly when the
    distance is within the radius and some collected finding is marked. *)
Lemma composite_check_spec (P : Platform) (user : User) (last : SensorReading)
  (details : list string) (high_risk : bool) (la lo hla hlo d : pyfloat) :
  located last user = Some (la, lo, hla, hlo) ->
  haversine P la lo hla hlo = Ok d ->
  composite_check P user last (details, high_risk)
  = Ok (details,
        high_risk
        || (f_leb d (of_int (geofence_m user)) && existsb marked details)).
Proof.
  intros Hloc Hd. unfold composite_check. rewrite Hloc, Hd. unfold rbind.
  destruct (f_leb d _ && existsb marked details), high_risk; reflexivity.
Qed.

(** C1. A motion finding alone escalates at home. When the water and gas
    blocks find nothing, the motion baseline mean is at least 0.5, the
    latest motion is 0, and the computed distance is within the radius, the
    evaluation returns the single finding of the motion block with
    [high_risk] set: the composite block takes the motion text for a
    resource finding, since it contains the marker of line 185. *)
Theorem motion_alone_escalates_at_home (P : Platform) (user : User)
  (last : SensorReading) (baselines : gmap string Baseline) (b : Baseline)
  (la lo hla hlo d : pyfloat) :
  water_check P baselines last ([], false) = Ok ([], false) ->
  gas_check P baselines last ([], false) = Ok ([], false) ->
  baselines !! "motion" = Some b ->
  f_geb (b_mean b) (Fin (1 # 2)) = true ->
  motion last = 0 ->
  located last user = Some (la, lo, hla, hlo) ->
  haversine P la lo hla hlo = Ok d ->
  f_leb d (of_int (geofence_m user)) = true ->
  evaluate_rules P user last baselines = Ok ([motion_absent_text], true).
Proof.
  intros Hw Hg Hb Hmean Hmot Hloc Hd Hhome.
  unfold evaluate_rules. rewrite Hw. cbn [rbind]. rewrite Hg. cbn [rbind].
  assert (Hm : motion_check baselines last ([], false)
               = ([motion_absent_text], false)).
  { unfold motion_check. rewrite Hb, Hmean, Hmot. simpl.
    rewrite andb_false_r. reflexivity. }
  rewrite Hm.
  unfold geofence_check. rewrite Hloc, Hd. cbn [rbind].
  rewrite (f_leb_true_gtb_false _ _ Hhome). cbn [rbind].
  rewrite (composite_check_spec P user last _ _ _ _ _ _ d Hloc Hd), Hhome.
  reflexivity.
Qed.

Lemma motion_alone_escalates_at_home_witness :
  exists last baselines,
    latest_reading Scenario.still_at_home 1 = Some last
    /\ compute_baselines Scenario.ref Scenario.noon 1 14 Scenario.still_at_home
       = baselines
    /\ evaluate_rules Scenario.ref Scenario.alice last baselines
       = Ok (["활동 이상(평소 활동적이나 현재 무활동)"], true)
    /\ (exists st,
          check_latest_for_user Scenario.ref Scenario.noon 1
            Scenario.still_at_home = Ok st
          /\ List.map alert_type (alerts st) = ["HIGH 이상징후"]).
Proof.
  exists (Scenario.reading 1 (Scenario.noon - Scenario.hours 1) 1 0 0).
  eexists. split; [vm_compute; reflexivity |]. split; [reflexivity |].
  split.
  - eapply (motion_alone_escalates_at_home Scenario.ref Scenario.alice _ _
              {| b_mean := Fin (1 # 2); b_std := Fin (1 # 2) |}
              (Fin (375 # 10)) (Fin 127) (Fin (375 # 10)) (Fin 127) (Fin 0)).
    all: vm_compute; reflexivity.
  - eexists. split; vm_compute; reflexivity.
Defined.

(** ** Insufficient history *)

Lemma filter_none {A : Type} (f : A -> bool) (l : list A) :
  (forall x, In x l -> f x = false) -> List.filter f l = [].
Proof.
  induction l as [| a l IH]; intros H; [reflexivity |].
  simpl. rewrite (H a) by (left; reflexivity).
  apply IH. intros x Hx. apply H. right. exact Hx.
Qed.




(** ** Missing subject, missing reading *)

Lemma find_absent {A : Type} (f : A -> bool) (l : list A) :
  (forall x, In x l -> f x = false) -> List.find f l = None.
Proof.
  induction l as [| a l IH]; intros H; [reflexivity |].
  simpl. rewrite (H a) by (left; reflexivity).
  apply IH. intros x Hx. apply H. right. exact Hx.
Qed.

(** C7. For a subject id that no user of the store carries, or that no
    reading of the store refers to, the evaluation returns normally and the
    store (users, readings, alerts and outbox) is the one it was given. *)
Theorem missing_entity_is_silent (P : Platform) (now user_id : Z) (st : Store) :
  (forall u, In u (users st) -> u_id u <> user_id)
  \/ (forall r, In r (readings st) -> r_user_id r <> user_id) ->
  check_latest_for_user P now user_id st = Ok st.
Proof.
  intros [Hu | Hr]; unfold check_latest_for_user.
  - unfold User_get. rewrite find_absent; [reflexivity |].
    intros u Hin. apply Z.eqb_neq. apply Hu, Hin.
  - destruct (User_get st user_id); [| reflexivity].
    unfold latest_reading. rewrite filter_none; [reflexivity |].
    intros r Hin. apply Z.eqb_neq. apply Hr, Hin.
Qed.

Lemma missing_entity_is_silent_witness :
  let st := Scenario.store [Scenario.alice] [Scenario.stale_reading] in
  ((forall u, In u (users st) -> u_id u <> 7)
   /\ check_latest_for_user Scenario.ref Scenario.noon 7 st = Ok st)
  /\
  let st0 := Scenario.store [Scenario.alice] [] in
  ((forall r, In r (readings st0) -> r_user_id r <> 1)
   /\ check_latest_for_user Scenario.ref Scenario.noon 1 st0 = Ok st0).
Proof.
  intros st. split.
  - assert (H : forall u, In u (users st) -> u_id u <> 7).
    { intros u [<- | []]. discriminate. }
    split; [exact H |].
    apply (missing_entity_is_silent Scenario.ref Scenario.noon 7 st).
    left. exact H.
  - intros st0.
    assert (H : forall r, In r (readings st0) -> r_user_id r <> 1).
    { intros r []. }
    split; [exact H |].
    apply (missing_entity_is_silent Scenario.ref Scenario.noon 1 st0).
    right. exact H.
Defined.

(** ** Dispatch *)

Lemma record_and_send_alert_alerts (now user_id : Z)
  (type details : string) (st : Store) :
  alerts (record_and_send_alert now user_id type details st)
  = (alerts st
     ++ [{| a_user_id := user_id; a_timestamp := now; alert_type := type;
            a_details := details;
            sent_to := join "," (attempted st user_id) |}])%list.
Proof.
  unfold record_and_send_alert, attempted, contact.
  destruct (User_get st user_id) as [u |]; [| reflexivity].
  destruct (str_truthy (u_email u)), (str_truthy (u_phone u)); reflexivity.
Qed.

Lemma record_and_send_alert_outbox (now user_id : Z)
  (type details : string) (st : Store) :
  exists notes,
    outbox (record_and_send_alert now user_id type details st)
    = (outbox st ++ notes)%list
    /\ List.map recipient notes = attempted st user_id.
Proof.
  unfold record_and_send_alert, attempted, contact.
  destruct (User_get st user_id) as [u |].
  - destruct (str_truthy (u_email u)) as [e |],
             (str_truthy (u_phone u)) as [p |]; simpl.
    + eexists [_; _]. rewrite <- app_assoc. split; reflexivity.
    + eexists [_]. split; reflexivity.
    + eexists [_]. split; reflexivity.
    + exists []. rewrite app_nil_r. split; reflexivity.
  - exists []. simpl. rewrite app_nil_r. split; reflexivity.
Qed.

Lemma no_contact_attempted (st : Store) (user_id : Z) :
  no_contact st user_id = true -> attempted st user_id = [].
Proof.
  unfold no_contact, attempted.
  destruct (User_get st user_id) as [u |]; [| reflexivity].
  destruct (str_truthy (u_email u)), (str_truthy (u_phone u));
    try discriminate. reflexivity.
Qed.

(** C9. A dispatch with at least one finding appends exactly one alert row:
    its type starts with [HIGH] when [high_risk] is set and with [LOW]
    otherwise, its details are the findings joined with ["; "], and its
    recipients are the contacts attempted, joined with [","], which are as
    many as the notifications handed to the sinks; when the subject is
    absent or has neither e-mail nor phone, the row is appended all the same,
    with the empty recipient list, and no notification is sent. *)
Theorem dispatch_persists_one_alert (now user_id : Z) (details : list string)
  (high_risk : bool) (st : Store) :
  details <> [] ->
  let st' := dispatch now user_id (details, high_risk) st in
  alerts st'
  = (alerts st
     ++ [{| a_user_id := user_id; a_timestamp := now;
            alert_type := (if high_risk then "HIGH" else "LOW") ++ " 이상징후";
            a_details := join "; " details;
            sent_to := join "," (attempted st user_id) |}])%list
  /\ (exists notes,
        outbox st' = (outbox st ++ notes)%list
        /\ List.map recipient notes = attempted st user_id)
  /\ (if no_contact st user_id
      then attempted st user_id = [] /\ outbox st' = outbox st
      else True).
Proof.
  intros Hne st'. subst st'. unfold dispatch.
  destruct details as [| f fs]; [contradiction |].
  split; [apply record_and_send_alert_alerts |].
  split; [apply record_and_send_alert_outbox |].
  destruct (no_contact st user_id) eqn:Hnc; [| exact I].
  pose proof (no_contact_attempted _ _ Hnc) as Hat.
  split; [exact Hat |].
  destruct (record_and_send_alert_outbox now user_id
              ((if high_risk then "HIGH" else "LOW") ++ " 이상징후")
              (join "; " (f :: fs)) st) as [notes [Ho Hr]].
  rewrite Ho. rewrite Hat in Hr. destruct notes; [| discriminate].
  apply app_nil_r.
Qed.

Lemma dispatch_persists_one_alert_witness :
  let st := Scenario.store [Scenario.dan] [] in
  ["a"; "b"] <> []
  /\ dispatch 5 3 (["a"; "b"], true) st
     = {| users := [Scenario.dan]; readings := [];
          alerts := [{| a_user_id := 3; a_timestamp := 5;
                        alert_type := "HIGH 이상징후";
                        a_details := "a; b"; sent_to := EmptyString |}];
          outbox := [] |}
  /\ alerts (dispatch 5 9 (["a"; "b"], false) st)
     = [{| a_user_id := 9; a_timestamp := 5;
           alert_type := "LOW 이상징후";
           a_details := "a; b"; sent_to := EmptyString |}]
  /\ alerts (dispatch 5 1 (["a"; "b"], false)
               (Scenario.store [Scenario.alice] []))
     = [{| a_user_id := 1; a_timestamp := 5;
           alert_type := "LOW 이상징후";
           a_details := "a; b";
           sent_to := "alice@example.org,010-1234-5678" |}].
Proof.
  intros st.
  assert (Hne : ["a"; "b"] <> []) by discriminate.
  split; [exact Hne |].
  pose proof (dispatch_persists_one_alert 5 3 ["a"; "b"] true st Hne) as H3.
  pose proof (dispatch_persists_one_alert 5 9 ["a"; "b"] false st Hne) as H9.
  pose proof (dispatch_persists_one_alert 5 1 ["a"; "b"] false
                (Scenario.store [Scenario.alice] []) Hne) as H1.
  cbv zeta in H3, H9, H1.
  destruct H3 as [E3 _], H9 as [E9 _], H1 as [E1 _].
  split; [vm_compute; reflexivity |].
  split; [rewrite E9 | rewrite E1]; vm_compute; reflexivity.
Defined.

(** ** Alerts and findings *)

Lemma app_one_neq {A : Type} (l : list A) (a : A) : (l ++ [a])%list <> l.
Proof.
  intros H. apply (f_equal (@length A)) in H.
  rewrite length_app in H. simpl in H. lia.
Qed.

(** C6. In every evaluation that reaches the rules, an alert is created
    exactly when the findings are not empty, whatever [high_risk] is: with
    no finding the store is returned as it was, otherwise exactly one alert
    is appended, and its details are the findings. *)
Theorem alert_iff_findings (P : Platform) (now user_id : Z) (st : Store)
  (user : User) (last : SensorReading) (acc : Findings) :
  User_get st user_id = Some user ->
  latest_reading st user_id = Some last ->
  evaluate_rules P user last (compute_baselines P now user_id 14 st) = Ok acc ->
  exists st',
    check_latest_for_user P now user_id st = Ok st'
    /\ ((exists a, alerts st' = (alerts st ++ [a])%list
                   /\ a_details a = join "; " (fst acc))
        <-> fst acc <> [])
    /\ (alerts st' = alerts st <-> fst acc = [])
    /\ (fst acc = [] -> st' = st).
Proof.
  intros Hu Hl He. unfold check_latest_for_user.
  rewrite Hu, Hl, He. cbn [rbind]. eexists. split; [reflexivity |].
  destruct acc as [details high_risk]. cbn [fst].
  destruct details as [| f fs].
  - simpl. repeat split; try congruence.
    intros [a [Ha _]]. exfalso. symmetry in Ha.
    exact (app_one_neq _ _ Ha).
  - unfold dispatch. rewrite record_and_send_alert_alerts.
    repeat split; try discriminate.
    + intros _. eexists. split; reflexivity.
    + intros H. exfalso. exact (app_one_neq _ _ H).
Qed.

Lemma alert_iff_findings_witness :
  exists last acc st',
    User_get Scenario.still_at_home 1 = Some Scenario.alice
    /\ latest_reading Scenario.still_at_home 1 = Some last
    /\ evaluate_rules Scenario.ref Scenario.alice last
         (compute_baselines Scenario.ref Scenario.noon 1 14
            Scenario.still_at_home) = Ok acc
    /\ check_latest_for_user Scenario.ref Scenario.noon 1
         Scenario.still_at_home = Ok st'
    /\ fst acc <> []
    /\ List.map a_details (alerts st') = [join "; " (fst acc)].
Proof.
  exists (Scenario.reading 1 (Scenario.noon - Scenario.hours 1) 1 0 0).
  exists (["활동 이상(평소 활동적이나 현재 무활동)"], true).
  assert (Hu : User_get Scenario.still_at_home 1 = Some Scenario.alice)
    by reflexivity.
  assert (Hl : latest_reading Scenario.still_at_home 1
               = Some (Scenario.reading 1 (Scenario.noon - Scenario.hours 1)
                         1 0 0))
    by (vm_compute; reflexivity).
  assert (He : evaluate_rules Scenario.ref Scenario.alice
                 (Scenario.reading 1 (Scenario.noon - Scenario.hours 1) 1 0 0)
                 (compute_baselines Scenario.ref Scenario.noon 1 14
                    Scenario.still_at_home)
               = Ok (["활동 이상(평소 활동적이나 현재 무활동)"], true))
    by (vm_compute; reflexivity).
  destruct (alert_iff_findings Scenario.ref Scenario.noon 1
              Scenario.still_at_home _ _ _ Hu Hl He)
    as [st' [Hc [[_ Hex] _]]].
  exists st'.
  assert (Hne : fst (["활동 이상(평소 활동적이나 현재 무활동)"], true)
                <> @nil string) by discriminate.
  destruct (Hex Hne) as [a [Ha Hd]].
  repeat split; try assumption.
  rewrite Ha. simpl. rewrite Hd. reflexivity.
Defined.

(** ** The sweep *)

(** C8 as stated fails: the evaluation of Alice raises, the sweep ends with
    that exception and no alert, and Carol, whose evaluation alone stores a
    HIGH alert and whom an isolating sweep would have reached, is not
    evaluated. *)
Lemma sweep_aborts_counterexample :
  check_latest_for_user Scenario.ref Scenario.noon 1 Scenario.sweep_store
  = Raise ValueError
  /\ periodic_check_all Scenario.ref Scenario.noon Scenario.sweep_store
     = (Scenario.sweep_store, Some ValueError)
  /\ (exists st',
        check_latest_for_user Scenario.ref Scenario.noon 2 Scenario.sweep_store
        = Ok st'
        /\ List.map alert_type (alerts st') = ["HIGH 이상징후"])
  /\ List.map a_user_id
       (alerts (isolated_check_each Scenario.ref Scenario.noon
                  (users Scenario.sweep_store) Scenario.sweep_store))
     = [2]
  /\ alerts (fst (periodic_check_all Scenario.ref Scenario.noon
                    Scenario.sweep_store))
     = [].
Proof.
  split; [vm_compute; reflexivity |].
  split; [vm_compute; reflexivity |].
  split; [eexists; split; vm_compute; reflexivity |].
  split; vm_compute; reflexivity.
Qed.

Lemma evaluated_isolated (P : Platform) (now : Z) (us : list User)
  (st st' : Store) :
  evaluated P now us st st' -> st' = isolated_check_each P now us st.
Proof.
  induction 1 as [st | u rest st st1 st' Hu _ IH]; [reflexivity |].
  cbn [isolated_check_each]. rewrite Hu. exact IH.
Qed.

Lemma check_each_evaluated (P : Platform) (now : Z) (us : list User)
  (st st' : Store) :
  evaluated P now us st st' -> check_each P now us st = (st', None).
Proof.
  induction 1 as [st | u rest st st1 st' Hu _ IH]; [reflexivity |].
  cbn [check_each]. rewrite Hu. exact IH.
Qed.

Lemma check_each_raises (P : Platform) (now : Z) (before : list User)
  (u : User) (after : list User) (st st1 : Store) (e : exn) :
  evaluated P now before st st1 ->
  check_latest_for_user P now (u_id u) st1 = Raise e ->
  check_each P now (before ++ u :: after) st = (st1, Some e).
Proof.
  intros Hb Hu.
  induction Hb as [st | v rest st st0 st1 Hv _ IH].
  - cbn [app check_each]. rewrite Hu. reflexivity.
  - change ((v :: rest) ++ u :: after)%list
      with (v :: (rest ++ u :: after))%list.
    cbn [check_each]. rewrite Hv. exact (IH Hu).
Qed.

Lemma check_each_spec (P : Platform) (now : Z) (us : list User) :
  forall st,
    match check_each P now us st with
    | (st', None) =>
        evaluated P now us st st' /\ st' = isolated_check_each P now us st
    | (st', Some e) =>
        exists before u after,
          us = (before ++ u :: after)%list
          /\ evaluated P now before st st'
          /\ st' = isolated_check_each P now before st
          /\ check_latest_for_user P now (u_id u) st' = Raise e
    end.
Proof.
  induction us as [| u rest IH]; intros st.
  - cbn [check_each]. split; [constructor | reflexivity].
  - cbn [check_each].
    destruct (check_latest_for_user P now (u_id u) st) as [st1 | e] eqn:Hu.
    + specialize (IH st1).
      destruct (check_each P now rest st1) as [st' [e |]].
      * destruct IH as [before [v [after [Hus [Hb [Hi Hv]]]]]].
        exists (u :: before), v, after.
        assert (He : evaluated P now (u :: before) st st')
          by (econstructor; eassumption).
        rewrite Hus.
        repeat split;
          [exact He | exact (evaluated_isolated _ _ _ _ _ He) | exact Hv].
      * destruct IH as [Hb _].
        assert (He : evaluated P now (u :: rest) st st')
          by (econstructor; eassumption).
        split; [exact He | exact (evaluated_isolated _ _ _ _ _ He)].
    + exists [], u, rest.
      repeat split; [constructor | exact Hu].
Qed.

(** C8, amended. The sweep evaluates the subjects one after another in the
    order of the store and stops at the first evaluation that raises. When
    no evaluation raises, the sweep ends normally and every subject has been
    evaluated. When the subjects before [u] are evaluated without an
    exception and the evaluation of [u] raises [e], the sweep ends with [e]
    in the store that the subjects before [u] have left: what they
    committed is kept, and neither [u] nor a subject after it adds
    anything. Conversely a sweep that ends normally has evaluated every
    subject, and one that ends with an exception has stopped in this way at
    some subject. *)
Theorem sweep_stops_at_first_failure (P : Platform) (now : Z) (st : Store) :
  (forall st',
     evaluated P now (users st) st st' ->
     periodic_check_all P now st = (st', None))
  /\ (forall before u after st1 e,
        users st = (before ++ u :: after)%list ->
        evaluated P now before st st1 ->
        check_latest_for_user P now (u_id u) st1 = Raise e ->
        periodic_check_all P now st = (st1, Some e))
  /\ match periodic_check_all P now st with
     | (st', None) =>
         evaluated P now (users st) st st'
         /\ st' = isolated_check_each P now (users st) st
     | (st', Some e) =>
         exists before u after,
           users st = (before ++ u :: after)%list
           /\ evaluated P now before st st'
           /\ st' = isolated_check_each P now before st
           /\ check_latest_for_user P now (u_id u) st' = Raise e
     end.
Proof.
  unfold periodic_check_all.
  split; [intros st' H; exact (check_each_evaluated _ _ _ _ _ H) |].
  split; [| apply check_each_spec].
  intros before u after st1 e Hus Hb Hu. rewrite Hus.
  exact (check_each_raises _ _ _ _ after _ _ _ Hb Hu).
Qed.

Lemma sweep_stops_at_first_failure_witness :
  let st := Scenario.late_failure in
  let st1 := isolated_check_each Scenario.ref Scenario.noon [Scenario.carol]
               st in
  users st = ([Scenario.carol] ++ Scenario.alice :: [])%list
  /\ evaluated Scenario.ref Scenario.noon [Scenario.carol] st st1
  /\ check_latest_for_user Scenario.ref Scenario.noon (u_id Scenario.alice) st1
     = Raise ValueError
  /\ periodic_check_all Scenario.ref Scenario.noon st = (st1, Some ValueError)
  /\ List.map a_user_id (alerts st1) = [2].
Proof.
  intros st st1.
  assert (H1 : users st = ([Scenario.carol] ++ Scenario.alice :: [])%list)
    by reflexivity.
  assert (H2 : evaluated Scenario.ref Scenario.noon [Scenario.carol] st st1).
  { apply evaluated_cons with (st1 := st1); [| constructor].
    vm_compute. reflexivity. }
  assert (H3 : check_latest_for_user Scenario.ref Scenario.noon
                 (u_id Scenario.alice) st1 = Raise ValueError)
    by (vm_compute; reflexivity).
  split; [exact H1 |]. split; [exact H2 |]. split; [exact H3 |].
  split; [| vm_compute; reflexivity].
  exact (proj1 (proj2 (sweep_stops_at_first_failure Scenario.ref Scenario.noon
                         st))
           [Scenario.carol] Scenario.alice [] st1 ValueError H1 H2 H3).
Defined.

(** ** Baselines *)















(** * Further properties *)

(** ** What [haversine] returns and raises *)

Lemma f_div_two (x : pyfloat) :
  f_div x (of_int 2) = Ok (f_div_ieee x (of_int 2)).
Proof. reflexivity. Qed.

Lemma math_sin_raises (P : Platform) (x : pyfloat) (e : exn) :
  math_sin P x = Raise e -> e = ValueError.
Proof. destruct x; simpl; congruence. Qed.

Lemma math_cos_raises (P : Platform) (x : pyfloat) (e : exn) :
  math_cos P x = Raise e -> e = ValueError.
Proof. destruct x; simpl; congruence. Qed.

Lemma math_sqrt_raises (P : Platform) (x : pyfloat) (e : exn) :
  math_sqrt P x = Raise e -> e = ValueError.
Proof.
  destruct x as [a| | |]; simpl; try congruence.
  destruct (Qlt_bool a 0); congruence.
Qed.

Lemma math_asin_raises (P : Platform) (x : pyfloat) (e : exn) :
  math_asin P x = Raise e -> e = ValueError.
Proof.
  destruct x as [a| | |]; simpl; try congruence.
  destruct (Qlt_bool 1 (Qabs a)); congruence.
Qed.

Lemma haversine_raises (P : Platform) (la lo hla hlo : pyfloat) (e : exn) :
  haversine P la lo hla hlo = Raise e -> e = ValueError.
Proof.
  unfold haversine. rewrite !f_div_two. cbn [rbind].
  repeat match goal with
         | |- context [rbind ?r _] =>
             let E := fresh "E" in
             destruct r eqn:E; cbn [rbind];
             [| intros H; injection H as <-;
                first [ apply math_sin_raises in E
                      | apply math_cos_raises in E
                      | apply math_sqrt_raises in E
                      | apply math_asin_raises in E ];
                exact E ]
         end.
  discriminate.
Qed.

(** X1. [haversine] returns a number or [nan], never an infinity, and the
    only exception it raises is [ValueError]. *)
Theorem haversine_outcomes (P : Platform) (la lo hla hlo : pyfloat) :
  match haversine P la lo hla hlo with
  | Ok d => finite_or_nan d
  | Raise e => e = ValueError
  end.
Proof.
  destruct (haversine P la lo hla hlo) as [d | e] eqn:H.
  - exact (haversine_finite_or_nan _ _ _ _ _ _ H).
  - exact (haversine_raises _ _ _ _ _ _ H).
Qed.

Lemma radians_of_inf (P : Platform) (x : pyfloat) :
  (0 < deg2rad P)%Q -> is_inf x = true -> is_inf (math_radians P x) = true.
Proof.
  intros Hpos Hx. unfold math_radians.
  destruct x; try discriminate; simpl; unfold inf_signed;
    rewrite (Qeq_bool_false_of_pos _ Hpos);
    apply Qlt_bool_iff in Hpos; rewrite Hpos; reflexivity.
Qed.

Lemma math_cos_of_inf (P : Platform) (x : pyfloat) :
  is_inf x = true -> math_cos P x = Raise ValueError.
Proof. destruct x; try discriminate; reflexivity. Qed.

(** A distance was returned only if both cosines were. *)
Lemma haversine_ok_cos (P : Platform) (la lo hla hlo d : pyfloat) :
  haversine P la lo hla hlo = Ok d ->
  (exists c1, math_cos P (math_radians P la) = Ok c1)
  /\ (exists c2, math_cos P (math_radians P hla) = Ok c2).
Proof.
  unfold haversine. rewrite !f_div_two. cbn [rbind].
  destruct (math_sin P _); cbn [rbind]; [| discriminate].
  destruct (math_cos P (math_radians P la)) as [c1 |]; cbn [rbind];
    [| discriminate].
  destruct (math_cos P (math_radians P hla)) as [c2 |]; cbn [rbind];
    [| discriminate].
  intros _. split; eexists; reflexivity.
Qed.

(** X2. With an infinite latitude, of the reading or of the home,
    [haversine] raises [ValueError], whatever the other coordinates are. *)
Theorem haversine_infinite_latitude (P : Platform) (la lo hla hlo : pyfloat) :
  (0 < deg2rad P)%Q ->
  is_inf la || is_inf hla = true ->
  haversine P la lo hla hlo = Raise ValueError.
Proof.
  intros Hpos Hinf.
  destruct (haversine P la lo hla hlo) as [d | e] eqn:H.
  - exfalso. destruct (haversine_ok_cos _ _ _ _ _ _ H) as [[c1 H1] [c2 H2]].
    apply orb_true_iff in Hinf as [Hi | Hi].
    + rewrite (math_cos_of_inf P _ (radians_of_inf P _ Hpos Hi)) in H1.
      discriminate.
    + rewrite (math_cos_of_inf P _ (radians_of_inf P _ Hpos Hi)) in H2.
      discriminate.
  - rewrite (haversine_raises _ _ _ _ _ _ H). reflexivity.
Qed.

Lemma haversine_infinite_latitude_witness :
  (0 < deg2rad Scenario.ref)%Q
  /\ is_inf PInf || is_inf (Fin (375 # 10)) = true
  /\ haversine Scenario.ref PInf (Fin 127) (Fin (375 # 10)) (Fin 127)
     = Raise ValueError.
Proof.
  assert (H1 : (0 < deg2rad Scenario.ref)%Q) by reflexivity.
  assert (H2 : is_inf PInf || is_inf (Fin (375 # 10)) = true) by reflexivity.
  split; [exact H1 | split; [exact H2 |]].
  exact (haversine_infinite_latitude Scenario.ref PInf (Fin 127)
           (Fin (375 # 10)) (Fin 127) H1 H2).
Defined.

(** ** The blocks only append *)






(** What the geofence block does once the distance is known. *)
Lemma geofence_check_spec (P : Platform) (user : User) (last : SensorReading)
  (details : list string) (hr : bool) (la lo hla hlo d : pyfloat) :
  located last user = Some (la, lo, hla, hlo) ->
  haversine P la lo hla hlo = Ok d ->
  exists di,
    geofence_check P user last (details, hr)
    = Ok (if f_gtb d (of_int (geofence_m user))
          then (details ++ [geofence_text di user])%list else details,
          hr || (f_gtb d (of_int (geofence_m user)) && at_night last)).
Proof.
  intros Hloc Hd. unfold geofence_check. rewrite Hloc, Hd. cbn [rbind].
  pose proof (haversine_finite_or_nan _ _ _ _ _ _ Hd) as Hfin.
  destruct (f_gtb d (of_int (geofence_m user))) eqn:Hb.
  - destruct d as [q| | |]; simpl in Hfin; try contradiction;
      [| discriminate Hb].
    eexists. simpl. destruct (at_night last), hr; reflexivity.
  - exists 0. rewrite orb_false_r. reflexivity.
Qed.






(** ** When an evaluation raises *)





(** ** The geofence block followed by the composite block *)

(** X5. On a computed distance [d] the last two blocks exclude each other:
    [d] is beyond the radius or within it, never both (and neither when it
    is [nan]). Together they raise [high_risk] when the breach falls in the
    night window or when, within the radius, a finding collected before the
    geofence block is marked; the geofence finding itself never triggers the
    composite rule. *)
Theorem geofence_then_composite (P : Platform) (user : User)
  (last : SensorReading) (details : list string) (hr : bool)
  (la lo hla hlo d : pyfloat) :
  located last user = Some (la, lo, hla, hlo) ->
  haversine P la lo hla hlo = Ok d ->
  let breach := f_gtb d (of_int (geofence_m user)) in
  let at_home := f_leb d (of_int (geofence_m user)) in
  breach && at_home = false
  /\ exists di,
       rbind (geofence_check P user last (details, hr))
         (composite_check P user last)
       = Ok (if breach then (details ++ [geofence_text di user])%list
             else details,
             hr || (breach && at_night last)
             || (at_home && existsb marked details)).
Proof.
  intros Hloc Hd breach at_home.
  assert (Hex : breach && at_home = false).
  { subst breach at_home. rewrite andb_comm. apply f_leb_gtb_excl. }
  split; [exact Hex |].
  destruct (geofence_check_spec P user last details hr _ _ _ _ d Hloc Hd)
    as [di E].
  exists di. rewrite E. cbn [rbind]. fold breach.
  rewrite (composite_check_spec P user last _ _ _ _ _ _ d Hloc Hd).
  fold at_home. destruct breach; simpl in *.
  - rewrite Hex. rewrite !andb_false_l, !orb_false_r. reflexivity.
  - reflexivity.
Qed.

Lemma geofence_then_composite_witness :
  located Scenario.away_at_night Scenario.alice
  = Some (Fin (3751 # 100), Fin 127, Fin (375 # 10), Fin 127)
  /\ (exists d,
        haversine Scenario.ref (Fin (3751 # 100)) (Fin 127)
          (Fin (375 # 10)) (Fin 127) = Ok d)
  /\ rbind (geofence_check Scenario.ref Scenario.alice Scenario.away_at_day
              ([motion_absent_text], false))
       (composite_check Scenario.ref Scenario.alice Scenario.away_at_day)
     = Ok ([motion_absent_text; "지오펜스 이탈: 거리 1111m (설정 300m)"],
           false).
Proof.
  assert (Hloc : located Scenario.away_at_day Scenario.alice
                 = Some (Fin (3751 # 100), Fin 127, Fin (375 # 10), Fin 127))
    by reflexivity.
  destruct (haversine Scenario.ref (Fin (3751 # 100)) (Fin 127)
              (Fin (375 # 10)) (Fin 127)) as [d |] eqn:Hd;
    [| vm_compute in Hd; discriminate Hd].
  destruct (geofence_then_composite Scenario.ref Scenario.alice
              Scenario.away_at_day [motion_absent_text] false _ _ _ _ d
              Hloc Hd) as [_ [di E]].
  split; [reflexivity | split; [exists d; reflexivity |]].
  clear E. vm_compute. reflexivity.
Defined.

(** ** The store only grows *)

Lemma attempted_at_most_two (st : Store) (user_id : Z) :
  (length (attempted st user_id) <= 2)%nat.
Proof.
  unfold attempted. destruct (User_get st user_id) as [u |]; [| simpl; lia].
  destruct (str_truthy (u_email u)), (str_truthy (u_phone u)); simpl; lia.
Qed.

Lemma record_and_send_alert_frame (now user_id : Z) (type details : string)
  (st : Store) :
  users (record_and_send_alert now user_id type details st) = users st
  /\ readings (record_and_send_alert now user_id type details st)
     = readings st.
Proof.
  unfold record_and_send_alert, contact.
  destruct (User_get st user_id) as [u |]; [| split; reflexivity].
  destruct (str_truthy (u_email u)), (str_truthy (u_phone u));
    split; reflexivity.
Qed.

Lemma grown_by_check_refl (now user_id : Z) (st : Store) :
  grown_by_check now user_id st st.
Proof.
  repeat split. exists []. rewrite app_nil_r.
  repeat split; [simpl; lia | constructor |].
  exists []. rewrite app_nil_r. split; [reflexivity | simpl; lia].
Qed.

Lemma dispatch_grows (now user_id : Z) (acc : Findings) (st : Store) :
  grown_by_check now user_id st (dispatch now user_id acc st).
Proof.
  destruct acc as [[| f fs] hr]; [apply grown_by_check_refl |].
  unfold dispatch.
  destruct (record_and_send_alert_frame now user_id
              ((if hr then "HIGH" else "LOW") ++ " 이상징후")
              (join "; " (f :: fs)) st) as [Hu Hr].
  split; [exact Hu | split; [exact Hr |]].
  eexists [_]. rewrite record_and_send_alert_alerts.
  split; [reflexivity |]. split; [simpl; lia |].
  split; [repeat constructor |].
  destruct (record_and_send_alert_outbox now user_id
              ((if hr then "HIGH" else "LOW") ++ " 이상징후")
              (join "; " (f :: fs)) st) as [notes [Ho Hn]].
  exists notes. split; [exact Ho |].
  pose proof (attempted_at_most_two st user_id) as H2.
  rewrite <- Hn, length_map in H2. simpl. lia.
Qed.

Lemma check_latest_for_user_grows (P : Platform) (now user_id : Z)
  (st : Store) :
  match check_latest_for_user P now user_id st with
  | Ok st' => grown_by_check now user_id st st'
  | Raise _ => True
  end.
Proof.
  unfold check_latest_for_user.
  destruct (User_get st user_id); [| apply grown_by_check_refl].
  destruct (latest_reading st user_id); [| apply grown_by_check_refl].
  destruct (evaluate_rules P _ _ _); cbn [rbind]; [| exact I].
  apply dispatch_grows.
Qed.

(** X11. An evaluation that returns has left the users and the readings as
    they were; it has appended at most one alert, carrying the subject's id
    and the time of the evaluation, and at most two notifications, none
    unless the alert was appended; no earlier alert or notification is
    removed or changed. *)
Theorem check_only_appends (P : Platform) (now user_id : Z) (st : Store) :
  match check_latest_for_user P now user_id st with
  | Ok st' =>
      users st' = users st
      /\ readings st' = readings st
      /\ (exists new,
            alerts st' = (alerts st ++ new)%list
            /\ (length new <= 1)%nat
            /\ Forall (fun a => a_user_id a = user_id /\ a_timestamp a = now)
                 new
            /\ exists notes,
                 outbox st' = (outbox st ++ notes)%list
                 /\ (length notes <= 2 * length new)%nat)
  | Raise _ => True
  end.
Proof. apply check_latest_for_user_grows. Qed.

Lemma sublist_In {A : Type} (l1 l2 : list A) :
  sublist l1 l2 -> forall x, In x l1 -> In x l2.
Proof.
  induction 1 as [| y l1 l2 _ IH | y l1 l2 _ IH]; intros x Hx.
  - exact Hx.
  - destruct Hx as [-> | Hx]; [left; reflexivity | right; exact (IH x Hx)].
  - right. exact (IH x Hx).
Qed.

Lemma check_each_grows (P : Platform) (now : Z) (us : list User) :
  forall st,
    users (fst (check_each P now us st)) = users st
    /\ readings (fst (check_each P now us st)) = readings st
    /\ exists new,
         alerts (fst (check_each P now us st)) = (alerts st ++ new)%list
         /\ sublist (List.map a_user_id new) (List.map u_id us)
         /\ Forall (fun a => a_timestamp a = now) new.
Proof.
  induction us as [| u rest IH]; intros st.
  - simpl. repeat split. exists []. rewrite app_nil_r.
    repeat split; constructor.
  - cbn [check_each].
    pose proof (check_latest_for_user_grows P now (u_id u) st) as Hg.
    destruct (check_latest_for_user P now (u_id u) st) as [st1 |].
    + destruct Hg as [Hu [Hr [new1 [Ha [Hl [Hf _]]]]]].
      destruct (IH st1) as [Hu' [Hr' [new2 [Ha' [Hs' Hf']]]]].
      split; [congruence | split; [congruence |]].
      exists (new1 ++ new2)%list.
      split; [rewrite Ha', Ha, app_assoc; reflexivity |].
      split.
      * destruct new1 as [| a [| b tl]]; [| | simpl in Hl; lia].
        -- cbn [app List.map]. apply sublist_cons. exact Hs'.
        -- apply List.Forall_inv in Hf. destruct Hf as [Hid _].
           cbn [app List.map]. rewrite Hid. apply sublist_skip. exact Hs'.
      * apply Forall_app. split; [| exact Hf'].
        eapply Forall_impl; [exact Hf |]. simpl. intros a [_ H2]. exact H2.
    + simpl. repeat split. exists []. rewrite app_nil_r.
      repeat split; [apply sublist_nil_l | constructor].
Qed.

(** X12. A sweep, ended normally or by an exception, has left the users and
    the readings as they were and has only appended alerts, each at the time
    of the sweep: read in their order, the subjects of the new alerts are
    the ids of some of the rows of the users table, in the order of the
    table, each row taken at most once. So no row of the table gets more
    than one alert in a sweep. *)
Theorem sweep_only_appends (P : Platform) (now : Z) (st : Store) :
  let st' := fst (periodic_check_all P now st) in
  users st' = users st
  /\ readings st' = readings st
  /\ exists new,
       alerts st' = (alerts st ++ new)%list
       /\ sublist (List.map a_user_id new) (List.map u_id (users st))
       /\ (length new <= length (users st))%nat
       /\ Forall (fun a => In (a_user_id a) (List.map u_id (users st))
                           /\ a_timestamp a = now) new.
Proof.
  unfold periodic_check_all.
  destruct (check_each_grows P now (users st) st)
    as [Hu [Hr [new [Ha [Hs Hf]]]]].
  split; [exact Hu |]. split; [exact Hr |].
  exists new. split; [exact Ha |]. split; [exact Hs |].
  split.
  - apply sublist_length in Hs. rewrite !length_map in Hs. exact Hs.
  - apply List.Forall_forall. intros a Hin. split.
    + assert (Hm : In (a_user_id a) (List.map a_user_id new))
        by (apply List.in_map; exact Hin).
      exact (sublist_In _ _ Hs _ Hm).
    + rewrite List.Forall_forall in Hf. exact (Hf a Hin).
Qed.

(** ** The latest reading *)

Lemma latest_of_In (rows : list SensorReading) (r : SensorReading) :
  latest_of rows = Some r -> In r rows.
Proof.
  revert r. induction rows as [| x rest IH]; intros r H; [discriminate |].
  cbn [latest_of] in H. destruct (latest_of rest) as [r' |].
  - destruct (r_timestamp x <? r_timestamp r'); injection H as <-.
    + right. apply IH. reflexivity.
    + left. reflexivity.
  - injection H as <-. left. reflexivity.
Qed.

Lemma latest_of_max (rows : list SensorReading) (r : SensorReading) :
  latest_of rows = Some r ->
  forall x, In x rows -> r_timestamp x <= r_timestamp r.
Proof.
  revert r. induction rows as [| y rest IH]; intros r H x Hx; [contradiction |].
  cbn [latest_of] in H. destruct (latest_of rest) as [r' |] eqn:Hr.
  - destruct (r_timestamp y <? r_timestamp r') eqn:Hlt; injection H as <-.
    + apply Z.ltb_lt in Hlt. destruct Hx as [<- | Hx]; [lia |].
      apply (IH r' eq_refl x Hx).
    + apply Z.ltb_ge in Hlt. destruct Hx as [<- | Hx]; [lia |].
      pose proof (IH r' eq_refl x Hx). lia.
  - injection H as <-. destruct Hx as [<- | Hx]; [lia |].
    destruct rest; [contradiction | simpl in Hr].
    destruct (latest_of rest); [destruct (_ <? _) |]; discriminate.
Qed.

Lemma latest_of_none (rows : list SensorReading) :
  latest_of rows = None -> rows = [].
Proof.
  destruct rows as [| x rest]; [reflexivity |]. simpl.
  destruct (latest_of rest); [destruct (_ <? _) |]; discriminate.
Qed.

(** A row newer than all the rows before it is the latest. *)
Lemma latest_of_newest (rows : list SensorReading) (r : SensorReading) :
  (forall x, In x rows -> r_timestamp x < r_timestamp r) ->
  latest_of (rows ++ [r]) = Some r.
Proof.
  induction rows as [| x rest IH]; intros H; [reflexivity |].
  change ((x :: rest) ++ [r])%list with (x :: (rest ++ [r]))%list.
  cbn [latest_of]. rewrite IH by (intros y Hy; apply H; right; exact Hy).
  replace (r_timestamp x <? r_timestamp r) with true; [reflexivity |].
  symmetry. apply Z.ltb_lt, H. left. reflexivity.
Qed.

Lemma latest_reading_spec (st : Store) (user_id : Z) (last : SensorReading) :
  latest_reading st user_id = Some last ->
  In last (readings st)
  /\ r_user_id last = user_id
  /\ forall r, In r (readings st) -> r_user_id r = user_id ->
               r_timestamp r <= r_timestamp last.
Proof.
  unfold latest_reading. intros H.
  pose proof (latest_of_In _ _ H) as Hin.
  apply filter_In in Hin as [Hin Hid]. apply Z.eqb_eq in Hid.
  split; [exact Hin | split; [exact Hid |]].
  intros r Hr Hu. apply (latest_of_max _ _ H).
  apply filter_In. split; [exact Hr | apply Z.eqb_eq; exact Hu].
Qed.

(** X7. The reading that an evaluation judges is a reading of the subject,
    and no reading of the subject has a later timestamp; there is none
    exactly when the store has no reading of the subject. *)
Theorem latest_reading_is_latest (st : Store) (user_id : Z) :
  match latest_reading st user_id with
  | Some last =>
      In last (readings st)
      /\ r_user_id last = user_id
      /\ forall r, In r (readings st) -> r_user_id r = user_id ->
                   r_timestamp r <= r_timestamp last
  | None => forall r, In r (readings st) -> r_user_id r <> user_id
  end.
Proof.
  destruct (latest_reading st user_id) as [last |] eqn:H.
  - apply latest_reading_spec, H.
  - unfold latest_reading in H. apply latest_of_none in H.
    intros r Hr Hu.
    assert (Hin : In r (List.filter (fun r => r_user_id r =? user_id)
                          (readings st))).
    { apply filter_In. split; [exact Hr | apply Z.eqb_eq; exact Hu]. }
    rewrite H in Hin. contradiction.
Qed.

Lemma latest_in_window (now user_id lookback : Z) (st : Store)
  (last : SensorReading) :
  latest_reading st user_id = Some last ->
  window now user_id lookback st <> [] ->
  In last (window now user_id lookback st).
Proof.
  intros Hl Hne. destruct (latest_reading_spec _ _ _ Hl) as [Hin [Hid Hmax]].
  destruct (window now user_id lookback st) as [| r rows] eqn:Hw;
    [contradiction |].
  assert (Hr : In r (window now user_id lookback st))
    by (rewrite Hw; left; reflexivity).
  rewrite <- Hw. unfold window in *.
  apply filter_In in Hr as [Hr Hc]. apply andb_true_iff in Hc as [Hu Ht].
  apply Z.eqb_eq in Hu. apply Z.leb_le in Ht.
  apply filter_In. split; [exact Hin |].
  apply andb_true_iff. split; [apply Z.eqb_eq; exact Hid |].
  apply Z.leb_le. specialize (Hmax r Hr Hu). lia.
Qed.

(** X8. Whenever the lookback window of a subject holds a reading, it holds
    the latest reading: the value that is judged is one of the samples of
    the baseline it is judged against. *)
Theorem latest_reading_in_window (now user_id lookback : Z) (st : Store)
  (last : SensorReading) :
  latest_reading st user_id = Some last ->
  window now user_id lookback st <> [] ->
  In last (window now user_id lookback st).
Proof. apply latest_in_window. Qed.

Lemma latest_reading_in_window_witness :
  exists last,
    latest_reading Scenario.two_readings 1 = Some last
    /\ window Scenario.noon 1 14 Scenario.two_readings <> []
    /\ In last (window Scenario.noon 1 14 Scenario.two_readings).
Proof.
  exists (Scenario.reading 1 (Scenario.noon - Scenario.hours 1) 3 0 0).
  assert (H1 : latest_reading Scenario.two_readings 1
               = Some (Scenario.reading 1 (Scenario.noon - Scenario.hours 1)
                         3 0 0)) by (vm_compute; reflexivity).
  assert (H2 : window Scenario.noon 1 14 Scenario.two_readings <> [])
    by (vm_compute; discriminate).
  split; [exact H1 | split; [exact H2 |]].
  exact (latest_reading_in_window Scenario.noon 1 14 Scenario.two_readings
           _ H1 H2).
Defined.

(** ** The keys of a baseline mapping *)

(** X9. The mapping that [compute_baselines] returns has a baseline under a
    key exactly when the window holds a reading and the key is one of
    [water_l], [gas_m3] and [motion]: it is empty or has these three
    keys. *)
Theorem baseline_keys (P : Platform) (now user_id lookback : Z) (st : Store)
  (k : string) :
  is_Some (compute_baselines P now user_id lookback st !! k)
  <-> (window now user_id lookback st <> []
       /\ (k = "water_l" \/ k = "gas_m3" \/ k = "motion")).
Proof.
  unfold compute_baselines.
  change (List.filter _ (readings st)) with (window now user_id lookback st).
  destruct (window now user_id lookback st) as [| r rows].
  - rewrite lookup_empty. split.
    + intros [x Hx]. discriminate.
    + intros [H _]. contradiction.
  - cbn [fold_left]. rewrite !lookup_insert_is_Some, lookup_empty.
    split.
    + intros H. split; [discriminate |].
      destruct H as [<- | [_ [<- | [_ [<- | [_ [x Hx]]]]]]];
        try discriminate; tauto.
    + intros [_ [-> | [-> | ->]]].
      * right. split; [discriminate |]. right. split; [discriminate |].
        left. reflexivity.
      * right. split; [discriminate |]. left. reflexivity.
      * left. reflexivity.
Qed.

(** ** Readings of other subjects *)

Lemma filter_snoc_false {A : Type} (f : A -> bool) (l : list A) (a : A) :
  f a = false -> List.filter f (l ++ [a]) = List.filter f l.
Proof.
  intros H. rewrite List.filter_app. simpl. rewrite H. apply app_nil_r.
Qed.

Lemma dispatch_add_reading (now user_id : Z) (acc : Findings)
  (r : SensorReading) (st : Store) :
  dispatch now user_id acc (add_reading r st)
  = add_reading r (dispatch now user_id acc st).
Proof.
  destruct acc as [[| f fs] hr]; [reflexivity |].
  unfold dispatch, record_and_send_alert, contact.
  change (User_get (add_reading r st) user_id) with (User_get st user_id).
  destruct (User_get st user_id) as [u |]; [| reflexivity].
  destruct (str_truthy (u_email u)), (str_truthy (u_phone u)); reflexivity.
Qed.

(** X10. A reading of another subject changes nothing for this subject: the
    latest reading and the baselines are the same, and the evaluation ends
    the same way, with the same alerts and the same notifications. *)
Theorem other_subjects_reading_is_ignored (P : Platform)
  (now user_id lookback : Z) (st : Store) (r : SensorReading) :
  r_user_id r <> user_id ->
  latest_reading (add_reading r st) user_id = latest_reading st user_id
  /\ compute_baselines P now user_id lookback (add_reading r st)
     = compute_baselines P now user_id lookback st
  /\ match check_latest_for_user P now user_id st,
           check_latest_for_user P now user_id (add_reading r st) with
     | Ok s, Ok s' => s' = add_reading r s
     | Raise e, Raise e' => e = e'
     | _, _ => False
     end.
Proof.
  intros Hne. apply Z.eqb_neq in Hne.
  assert (Hl : latest_reading (add_reading r st) user_id
               = latest_reading st user_id).
  { unfold latest_reading, add_reading. cbn [readings].
    rewrite filter_snoc_false by exact Hne. reflexivity. }
  assert (Hb : forall lb, compute_baselines P now user_id lb (add_reading r st)
                          = compute_baselines P now user_id lb st).
  { intros lb. unfold compute_baselines, add_reading. cbn [readings].
    rewrite filter_snoc_false by (rewrite Hne; reflexivity). reflexivity. }
  split; [exact Hl | split; [apply Hb |]].
  unfold check_latest_for_user. rewrite Hl, Hb.
  change (User_get (add_reading r st) user_id) with (User_get st user_id).
  destruct (User_get st user_id) as [u |]; [| reflexivity].
  destruct (latest_reading st user_id) as [l |]; [| reflexivity].
  destruct (evaluate_rules P u l _); cbn [rbind]; [| reflexivity].
  apply dispatch_add_reading.
Qed.

Lemma other_subjects_reading_is_ignored_witness :
  r_user_id Cases.carol_reading <> 1
  /\ compute_baselines Scenario.ref Scenario.noon 1 14
       (add_reading Cases.carol_reading Scenario.still_at_home)
     = compute_baselines Scenario.ref Scenario.noon 1 14
         Scenario.still_at_home
  /\ exists s,
       check_latest_for_user Scenario.ref Scenario.noon 1
         Scenario.still_at_home = Ok s
       /\ check_latest_for_user Scenario.ref Scenario.noon 1
            (add_reading Cases.carol_reading Scenario.still_at_home)
          = Ok (add_reading Cases.carol_reading s).
Proof.
  assert (Hne : r_user_id Cases.carol_reading <> 1) by discriminate.
  destruct (other_subjects_reading_is_ignored Scenario.ref Scenario.noon 1 14
              Scenario.still_at_home Cases.carol_reading Hne)
    as [_ [Hb Hc]].
  split; [exact Hne | split; [exact Hb |]].
  destruct (check_latest_for_user Scenario.ref Scenario.noon 1
              Scenario.still_at_home) as [s |] eqn:Hs;
    [| vm_compute in Hs; discriminate Hs].
  exists s. split; [reflexivity |].
  destruct (check_latest_for_user Scenario.ref Scenario.noon 1
              (add_reading Cases.carol_reading Scenario.still_at_home))
    as [s' |]; [| contradiction].
  rewrite Hc. reflexivity.
Defined.

(** ** Uploading a reading *)









(** ** The page of alerts *)

Lemma insert_desc_perm (a : Alert) (l : list Alert) :
  Permutation (insert_desc a l) (a :: l).
Proof.
  induction l as [| b rest IH]; [reflexivity |].
  simpl. destruct (a_timestamp b <=? a_timestamp a); [reflexivity |].
  rewrite IH. apply perm_swap.
Qed.

Lemma order_by_perm (l : list Alert) :
  Permutation (order_by_timestamp_desc l) l.
Proof.
  induction l as [| a rest IH]; [reflexivity |].
  simpl. rewrite insert_desc_perm. constructor. exact IH.
Qed.

Lemma insert_desc_sorted (a : Alert) (l : list Alert) :
  StronglySorted newer_first l -> StronglySorted newer_first (insert_desc a l).
Proof.
  induction l as [| b rest IH]; intros Hs.
  - repeat constructor.
  - simpl. destruct (a_timestamp b <=? a_timestamp a) eqn:Hc.
    + apply Z.leb_le in Hc. constructor; [exact Hs |].
      apply StronglySorted_inv in Hs as [_ Hb].
      constructor; [exact Hc |].
      eapply Forall_impl; [exact Hb |]. unfold newer_first. simpl.
      intros c Hcb. lia.
    + apply Z.leb_gt in Hc.
      apply StronglySorted_inv in Hs as [Hrest Hb].
      constructor; [apply IH, Hrest |].
      apply List.Forall_forall. intros c Hin.
      apply (Permutation_in c (insert_desc_perm a rest)) in Hin.
      destruct Hin as [<- | Hin]; [unfold newer_first; lia |].
      rewrite List.Forall_forall in Hb. apply Hb, Hin.
Qed.

Lemma order_by_sorted (l : list Alert) :
  StronglySorted newer_first (order_by_timestamp_desc l).
Proof.
  induction l as [| a rest IH]; [constructor |].
  simpl. apply insert_desc_sorted, IH.
Qed.

Lemma sorted_split (l1 l2 : list Alert) :
  StronglySorted newer_first (l1 ++ l2) ->
  StronglySorted newer_first l1
  /\ forall a b, In a l1 -> In b l2 -> newer_first a b.
Proof.
  induction l1 as [| x l1 IH]; intros Hs.
  - split; [constructor | intros a b []].
  - simpl in Hs. apply StronglySorted_inv in Hs as [Hrest Hx].
    destruct (IH Hrest) as [Hs1 Hcross].
    apply Forall_app in Hx as [Hx1 Hx2].
    split; [constructor; assumption |].
    intros a b [<- | Ha] Hb.
    + rewrite List.Forall_forall in Hx2. apply Hx2, Hb.
    + apply Hcross; assumption.
Qed.

(** X17. The page that [api_alerts] answers holds at most 200 alerts, the
    selected ones when there are no more than 200; they go from the newest
    to the oldest; every one is an alert of the store, of the requested
    subject when one is requested; and the selected alerts left out are not
    newer than any alert of the page. *)
Theorem alerts_page (user_id : option Z) (st : Store) :
  let page := api_alerts user_id st in
  length page = Nat.min 200 (length (matching user_id st))
  /\ StronglySorted newer_first page
  /\ (forall a, In a page ->
                In a (alerts st)
                /\ match user_id with
                   | Some uid => a_user_id a = uid
                   | None => True
                   end)
  /\ exists rest,
       Permutation (matching user_id st) (page ++ rest)
       /\ forall a b, In a page -> In b rest -> newer_first a b.
Proof.
  intros page. subst page. unfold api_alerts.
  change (match user_id with
          | Some uid => List.filter (fun a => a_user_id a =? uid) (alerts st)
          | None => alerts st
          end) with (matching user_id st).
  set (sorted := order_by_timestamp_desc (matching user_id st)).
  assert (Hperm : Permutation sorted (matching user_id st))
    by apply order_by_perm.
  assert (Hsplit : sorted = (firstn 200 sorted ++ skipn 200 sorted)%list)
    by (symmetry; apply firstn_skipn).
  assert (Hs : StronglySorted newer_first
                 (firstn 200 sorted ++ skipn 200 sorted))
    by (rewrite <- Hsplit; apply order_by_sorted).
  destruct (sorted_split _ _ Hs) as [Hs1 Hcross].
  split; [| split; [exact Hs1 | split]].
  - rewrite length_firstn, (Permutation_length Hperm). reflexivity.
  - intros a Ha.
    assert (Hin : In a (matching user_id st)).
    { apply (Permutation_in a Hperm). rewrite Hsplit.
      apply in_or_app. left. exact Ha. }
    unfold matching in Hin. destruct user_id as [uid |].
    + apply filter_In in Hin as [Hin Hid]. apply Z.eqb_eq in Hid. auto.
    + auto.
  - exists (skipn 200 sorted). split; [| exact Hcross].
    rewrite <- Hsplit. symmetry. exact Hperm.
Qed.

(** ** Evaluating twice *)

(** The outcome of an evaluation depends on the users and the readings
    only. *)
Lemma check_reads_users_and_readings (P : Platform) (now user_id : Z)
  (st st1 : Store) :
  users st1 = users st ->
  readings st1 = readings st ->
  match check_latest_for_user P now user_id st,
        check_latest_for_user P now user_id st1 with
  | Ok s, Ok s1 =>
      exists new,
        alerts s = (alerts st ++ new)%list
        /\ alerts s1 = (alerts st1 ++ new)%list
  | Raise e, Raise e1 => e = e1
  | _, _ => False
  end.
Proof.
  intros Hu Hr. unfold check_latest_for_user.
  assert (Hg : User_get st1 user_id = User_get st user_id)
    by (unfold User_get; rewrite Hu; reflexivity).
  assert (Hl : latest_reading st1 user_id = latest_reading st user_id)
    by (unfold latest_reading; rewrite Hr; reflexivity).
  assert (Hb : compute_baselines P now user_id 14 st1
               = compute_baselines P now user_id 14 st)
    by (unfold compute_baselines; rewrite Hr; reflexivity).
  assert (Ha : attempted st1 user_id = attempted st user_id)
    by (unfold attempted; rewrite Hg; reflexivity).
  rewrite Hg, Hl, Hb.
  destruct (User_get st user_id) as [u |];
    [| exists []; rewrite !app_nil_r; split; reflexivity].
  destruct (latest_reading st user_id) as [l |];
    [| exists []; rewrite !app_nil_r; split; reflexivity].
  destruct (evaluate_rules P u l _) as [[[| f fs] hr] |]; cbn [rbind];
    [| | reflexivity].
  - exists []. rewrite !app_nil_r. split; reflexivity.
  - unfold dispatch. rewrite !record_and_send_alert_alerts, Ha.
    eexists. split; reflexivity.
Qed.

(** X13. Alerts are not deduplicated: an evaluation repeated on the store
    that the first one returned, at the same time, returns again and
    appends once more the alerts that the first one appended. *)
Theorem repeated_check_repeats_alert (P : Platform) (now user_id : Z)
  (st st1 : Store) :
  check_latest_for_user P now user_id st = Ok st1 ->
  exists new st2,
    alerts st1 = (alerts st ++ new)%list
    /\ check_latest_for_user P now user_id st1 = Ok st2
    /\ alerts st2 = (alerts st ++ new ++ new)%list.
Proof.
  intros H1.
  pose proof (check_latest_for_user_grows P now user_id st) as Hg.
  rewrite H1 in Hg. destruct Hg as [Hu [Hr _]].
  pose proof (check_reads_users_and_readings P now user_id st st1 Hu Hr) as Hc.
  rewrite H1 in Hc.
  destruct (check_latest_for_user P now user_id st1) as [st2 |];
    [| contradiction].
  destruct Hc as [new [Ha1 Ha2]].
  exists new, st2. split; [exact Ha1 | split; [reflexivity |]].
  rewrite Ha2, Ha1, <- app_assoc. reflexivity.
Qed.

Lemma repeated_check_repeats_alert_witness :
  exists st1 st2,
    check_latest_for_user Scenario.ref Scenario.noon 1 Scenario.stale_history
    = Ok st1
    /\ check_latest_for_user Scenario.ref Scenario.noon 1 st1 = Ok st2
    /\ List.map a_details (alerts st2)
       = ["수도 사용 급증: 6.0L (평소 거의 사용 없음)";
          "수도 사용 급증: 6.0L (평소 거의 사용 없음)"].
Proof.
  destruct (check_latest_for_user Scenario.ref Scenario.noon 1
              Scenario.stale_history) as [st1 |] eqn:H1;
    [| vm_compute in H1; discriminate H1].
  destruct (repeated_check_repeats_alert Scenario.ref Scenario.noon 1
              Scenario.stale_history st1 H1) as [new [st2 [Ha [H2 Hb]]]].
  exists st1, st2. split; [reflexivity | split; [exact H2 |]].
  rewrite Hb.
  vm_compute in H1. injection H1 as <-.
  vm_compute in Ha. subst new.
  vm_compute. reflexivity.
Defined.
